(** * Verification of the automated spectroscopy scan (gpt_rascunho_ic.py)

    Shallow embedding of the three classes of the script:
    [BenthamMonochromator] (monochromator, TMc300), [SR7265LockIn]
    (lock-in amplifier) and [Experimento] (the sweep controller).

    - Numbers (wavelengths, durations, samples) are rationals [Q]; the
      floating-point rounding of the script is not modelled.
    - The global flag [SIMULATE] and everything the instruments answer
      (driver return codes, achieved wavelengths, status words, XY
      readings, the simulated noisy spectrum) form an environment [Env].
    - Methods run in a state-and-exception monad [M]; the state holds the
      object fields the script mutates ([mono.current_lambda], [mono.lib],
      [lockin.inst], [lockin.tau], [self.dados]) and a trace of the
      observable instrument calls and [time.sleep] waits. *)

From Stdlib Require Import ZArith QArith Qminmax List Lia Bool.
Import ListNotations.

Open Scope Q_scope.

(** ** Exceptions the script can raise *)
Inductive exn :=
| RuntimeError     (* "Erro grave de Hardware no TMc300." *)
| OSError          (* ctypes.cdll.LoadLibrary fails *)
| AttributeError   (* method called on [None] (lib / inst never set) *)
| VisaError        (* a pyvisa open / query / write fails *)
| ValueError       (* int(...) parse, tuple unpacking, range step 0,
                      time.sleep of a negative length *)
| OverflowError.   (* int / int or float ** 2 beyond the float range,
                      time.sleep beyond the 64-bit nanosecond range *)

(** ** The GPIB commands [inst.write] sends *)
Inductive gpib_cmd :=
| CmdCP0            (* "CP 0" *)
| CmdFLOAT1         (* "FLOAT 1" *)
| CmdFET1           (* "FET 1" *)
| CmdTC (t : Q)     (* f"TC. {tau}" *)
| CmdAS.            (* "AS" *)

(** ** Observable calls, in program order *)
Inductive event :=
| EvSelect (wl : Q)        (* lib.BI_select_wavelength(wl, ...) *)
| EvSleep (d : Q)          (* time.sleep(d) *)
| EvStatus (wl : Q)        (* lockin.verificar_status(wl) invoked *)
| EvAutoSens               (* lockin.auto_sensitivity() invoked *)
| EvReadXY (wl : Q)        (* lockin.ler_XY(wl) invoked *)
| EvMonoFechar             (* mono.fechar() invoked *)
| EvPark                   (* lib.BI_park() *)
| EvCloseSystem            (* lib.BI_close_system() *)
| EvLockFechar             (* lockin.fechar() invoked *)
| EvInstClose.             (* inst.close() *)

Definition event_eqb (a b : event) : bool :=
  match a, b with
  | EvSelect x, EvSelect y | EvSleep x, EvSleep y | EvStatus x, EvStatus y
  | EvReadXY x, EvReadXY y => Qeq_bool x y
  | EvAutoSens, EvAutoSens | EvMonoFechar, EvMonoFechar | EvPark, EvPark
  | EvCloseSystem, EvCloseSystem | EvLockFechar, EvLockFechar
  | EvInstClose, EvInstClose => true
  | _, _ => false
  end.

(** Number of occurrences of an event in a trace. *)
Definition count_ev (e : event) (t : list event) : nat :=
  length (filter (event_eqb e) t).

(** ** One row of [self.dados]: [wl_real, x, y, r, fase] *)
Record row := mkRow { r_wl : Q; r_x : Q; r_y : Q; r_r : Q; r_fase : Q }.

(** ** Environment: the global flag and the instruments' answers *)
Record Env := mkEnv {
  SIMULATE : bool;
  lib_loads : bool;                 (* LoadLibrary("benhw64.dll") succeeds *)
  bi_init_ok : bool;                (* BI_initialise() = 0 and BI_build_system(...) = 0 *)
  select : Q -> Q;                  (* achieved wavelength of BI_select_wavelength *)
  open_ok : bool;                   (* rm.open_resource(endereco) succeeds *)
  idn_ok : bool;                    (* inst.query('*IDN?') succeeds *)
  write_ok : gpib_cmd -> list event -> bool;
                                    (* inst.write(cmd) succeeds, given the calls so far *)
  status_word : Q -> option Z;      (* int(inst.query("ST")); None: the query raises *)
  xy_reply : Q -> option (Q * Q);   (* map(float, inst.query("XY.").split(",")); None: raises *)
  sim_xy : Q -> Q * Q;              (* simulated spectrum: two Gaussian peaks plus noise,
                                       when its exponents are in the float range *)
  hypot : Q -> Q -> Q;              (* math.sqrt(x**2 + y**2) *)
  atan2_deg : Q -> Q -> Q           (* math.degrees(math.atan2(y, x)) *)
}.

(** ** Object state *)
Record St := mkSt {
  current_lambda : option Q;   (* mono.current_lambda *)
  lib : bool;                  (* mono.lib is not None *)
  inst : bool;                 (* lockin.inst is not None *)
  tau : Q;                     (* lockin.tau *)
  dados : list row;            (* self.dados *)
  trace : list event           (* observable calls so far *)
}.

(** [Experimento()]: fresh monochromator and lock-in, empty dataset. *)
Definition experimento_init : St := mkSt None false false (3 # 10) [] [].

(** ** State-and-exception monad *)
Inductive result (A : Type) := Ok (a : A) | Err (e : exn).
Arguments Ok {A} a.
Arguments Err {A} e.

Definition M (A : Type) := St -> result A * St.

Definition ret {A} (a : A) : M A := fun s => (Ok a, s).
Definition raise {A} (e : exn) : M A := fun s => (Err e, s).
Definition bind {A B} (m : M A) (f : A -> M B) : M B :=
  fun s => match m s with
           | (Ok a, s') => f a s'
           | (Err e, s') => (Err e, s')
           end.

Notation "x <- m ;; k" := (bind m (fun x => k))
  (at level 61, m at next level, right associativity).
Notation "m ;; k" := (bind m (fun _ => k)) (at level 61, right associativity).

Definition get : M St := fun s => (Ok s, s).
Definition emit (e : event) : M unit :=
  fun s => (Ok tt, mkSt (current_lambda s) (lib s) (inst s) (tau s) (dados s) (trace s ++ [e])).
Definition set_current_lambda (c : option Q) : M unit :=
  fun s => (Ok tt, mkSt c (lib s) (inst s) (tau s) (dados s) (trace s)).
Definition set_lib (b : bool) : M unit :=
  fun s => (Ok tt, mkSt (current_lambda s) b (inst s) (tau s) (dados s) (trace s)).
Definition set_inst (b : bool) : M unit :=
  fun s => (Ok tt, mkSt (current_lambda s) (lib s) b (tau s) (dados s) (trace s)).
Definition set_tau (t : Q) : M unit :=
  fun s => (Ok tt, mkSt (current_lambda s) (lib s) (inst s) t (dados s) (trace s)).
Definition append_dados (r : row) : M unit :=
  fun s => (Ok tt, mkSt (current_lambda s) (lib s) (inst s) (tau s) (dados s ++ [r]) (trace s)).

(** Python's [try: body finally: fin]: [fin] always runs; an exception it
    raises replaces the outcome of [body]. *)
Definition try_finally {A} (body : M A) (fin : M unit) : M A :=
  fun s => match body s with
           | (r, s1) => match fin s1 with
                        | (Ok _, s2) => (r, s2)
                        | (Err e, s2) => (Err e, s2)
                        end
           end.

(** Strict comparison of Python numbers. *)
Definition qlt (a b : Q) : bool := negb (Qle_bool b a).

(** ** Float range *)

(** The least magnitude that rounds to infinity in binary64
    (round-half-even): [2^1024 - 2^970], half-way between the largest
    finite double and [2^1024].  Python's [int / int] is correctly
    rounded and raises OverflowError from this magnitude on; a float
    [x ** 2] does the same. *)
Definition FLOAT_LIMIT : Q := inject_Z (2 ^ 1024 - 2 ^ 970).

(** [x ** 2] of a Python float raises OverflowError. *)
Definition float_sq_overflows (x : Q) : bool := Qle_bool FLOAT_LIMIT (x * x).

(** ** [time.sleep] *)

(** [time.sleep(d)] converts [d] to whole nanoseconds in a signed 64-bit
    integer (OverflowError outside it), then refuses a negative length
    (ValueError). *)
Definition NS_RANGE : Q := inject_Z (2 ^ 63).

Definition sleep_check (d : Q) : option exn :=
  if Qle_bool NS_RANGE (d * inject_Z (10 ^ 9)) || qlt (d * inject_Z (10 ^ 9)) (- NS_RANGE)
  then Some OverflowError
  else if qlt d 0 then Some ValueError
  else None.

Definition time_sleep (d : Q) : M unit :=
  match sleep_check d with
  | Some e => raise e
  | None => emit (EvSleep d)
  end.

(** ** BenthamMonochromator *)
Section Mono.
Variable env : Env.

(** [inicializar] *)
Definition mono_inicializar : M unit :=
  if SIMULATE env then ret tt
  else if lib_loads env then
         set_lib true;;
         if bi_init_ok env then ret tt else raise RuntimeError
       else raise OSError.

(** [_enviar_comando]: [self.lib.BI_select_wavelength]; [self.lib] is
    [None] when the library was never loaded. *)
Definition enviar_comando (wl : Q) : M Q :=
  s <- get;;
  if lib s then emit (EvSelect wl);; ret (select env wl)
  else raise AttributeError.

Definition OVERSHOOT : Q := 2.

(** [mover_para] *)
Definition mover_para (lambda_nm : Q) : M Q :=
  if SIMULATE env then
    set_current_lambda (Some lambda_nm);; ret lambda_nm
  else
    s <- get;;
    (match current_lambda s with
     | Some c =>
         if qlt lambda_nm c then
           let temp_wl := Qmax 0 (lambda_nm - OVERSHOOT) in
           enviar_comando temp_wl;;
           (* time.sleep(0.1): a constant in range, it never raises *)
           emit (EvSleep (1 # 10))
         else ret tt
     | None => ret tt
     end);;
    wl_real <- enviar_comando lambda_nm;;
    set_current_lambda (Some wl_real);;
    ret wl_real.

(** [fechar] *)
Definition mono_fechar : M unit :=
  emit EvMonoFechar;;
  if SIMULATE env then ret tt
  else
    s <- get;;
    if lib s then emit EvPark;; emit EvCloseSystem
    else raise AttributeError.

End Mono.

(** ** SR7265LockIn *)
Section LockIn.
Variable env : Env.

(** [conectar]: [self.inst] is set once [open_resource] returns, before
    the identification query. *)
Definition lockin_conectar : M unit :=
  if SIMULATE env then ret tt
  else if open_ok env then
         set_inst true;;
         if idn_ok env then ret tt else raise VisaError
       else raise VisaError.

(** [inst.write(cmd)]: each write may fail on its own. *)
Definition inst_write (cmd : gpib_cmd) : M unit :=
  s <- get;;
  if inst s then (if write_ok env cmd (trace s) then ret tt else raise VisaError)
  else raise AttributeError.

(** [configurar_experimento]: CP 0, FLOAT 1, FET 1, TC. tau. *)
Definition lockin_configurar (t : Q) : M unit :=
  set_tau t;;
  if SIMULATE env then ret tt
  else inst_write CmdCP0;; inst_write CmdFLOAT1;; inst_write CmdFET1;;
       inst_write (CmdTC t).

(** The simulated spectrum's exponents [-((wl - 500)**2) / 200] and
    [-((wl - 650)**2) / 100] are [int / int] divisions: they raise
    OverflowError beyond the float range ([np.exp] of a huge negative
    float is only 0). *)
Definition sim_overflow (wl : Q) : bool :=
  Qle_bool FLOAT_LIMIT ((wl - 500) * (wl - 500) / 200) ||
  Qle_bool FLOAT_LIMIT ((wl - 650) * (wl - 650) / 100).

(** [ler_XY] *)
Definition ler_XY (wl : Q) : M (Q * Q) :=
  emit (EvReadXY wl);;
  if SIMULATE env then
    (if sim_overflow wl then raise OverflowError else ret (sim_xy env wl))
  else
    s <- get;;
    if inst s then
      match xy_reply env wl with
      | Some p => ret p
      | None => raise VisaError
      end
    else raise AttributeError.

(** [verificar_status]: the [overload] entry of the returned dict. *)
Definition verificar_status (wl : Q) : M bool :=
  emit (EvStatus wl);;
  if SIMULATE env then ret (qlt 640 wl && qlt wl 660)
  else
    s <- get;;
    if inst s then
      match status_word env wl with
      | Some st => ret (negb (Z.eqb (Z.land st 16) 0))
      | None => raise VisaError
      end
    else raise AttributeError.

(** [auto_sensitivity] *)
Definition auto_sensitivity : M unit :=
  emit EvAutoSens;;
  if SIMULATE env then ret tt else inst_write CmdAS.

(** [fechar] *)
Definition lockin_fechar : M unit :=
  emit EvLockFechar;;
  if SIMULATE env then ret tt
  else
    s <- get;;
    if inst s then emit EvInstClose else raise AttributeError.

End LockIn.

(** ** Python's [range(start, stop, step)] on integers; [None] is the
    ValueError raised for a zero step. *)
Definition range_len (start stop step : Z) : nat :=
  if (0 <? step)%Z then
    if (start <? stop)%Z then Z.to_nat ((stop - start - 1) / step + 1) else O
  else
    if (stop <? start)%Z then Z.to_nat ((start - stop - 1) / (- step) + 1) else O.

Definition py_range (start stop step : Z) : option (list Z) :=
  if (step =? 0)%Z then None
  else Some (map (fun i => start + Z.of_nat i * step)%Z
                 (seq 0 (range_len start stop step))).

(** ** Experimento *)
Section Experimento.
Variable env : Env.

(** The wait of [time.sleep(tempo_espera if not SIMULATE else 0.05)]. *)
Definition espera (tempo_espera : Q) : Q :=
  if SIMULATE env then 1 # 20 else tempo_espera.

(** [x**2] and [y**2] of [math.sqrt(x**2 + y**2)]: on real hardware [x]
    and [y] are Python floats, whose [**] raises OverflowError; the
    simulated ones are numpy floats, whose [**] overflows to [inf]
    silently. *)
Definition magnitude_overflows (x y : Q) : bool :=
  negb (SIMULATE env) && (float_sq_overflows x || float_sq_overflows y).

(** One iteration of the [for] loop body. *)
Definition passo (tempo_espera : Q) (wl : Z) : M unit :=
  wl_real <- mover_para env (inject_Z wl);;
  time_sleep (espera tempo_espera);;
  overload <- verificar_status env wl_real;;
  (if overload then
     auto_sensitivity env;;
     time_sleep (espera tempo_espera)
   else ret tt);;
  xy <- ler_XY env wl_real;;
  let (x, y) := xy in
  (if magnitude_overflows x y then raise OverflowError else ret tt);;
  let r := hypot env x y in
  let fase := atan2_deg env x y in
  append_dados (mkRow wl_real x y r fase).

Fixpoint laco (tempo_espera : Q) (l : list Z) : M unit :=
  match l with
  | [] => ret tt
  | wl :: l' => passo tempo_espera wl;; laco tempo_espera l'
  end.

(** The three calls before the [try]. *)
Definition preparar (t : Q) : M unit :=
  mono_inicializar env;;
  lockin_conectar env;;
  lockin_configurar env t.

(** The [try] body: [range] is evaluated inside the [try]. *)
Definition corpo (start end_ step : Z) (t : Q) : M unit :=
  match py_range start (end_ + 1) step with
  | Some l => laco (t * 5) l
  | None => raise ValueError
  end.

(** The [finally] block. *)
Definition finalizar : M unit :=
  mono_fechar env;;
  lockin_fechar env.

(** [executar_varredura(start, end, step, tau)] *)
Definition executar_varredura (start end_ step : Z) (t : Q) : M unit :=
  preparar t;;
  try_finally (corpo start end_ step t) finalizar.

(** [salvar_e_plotar]: the rows of the DataFrame handed to CSV and plot. *)
Definition salvar_e_plotar_rows (s : St) : list row := dados s.

End Experimento.

(** * Sample environments *)

(** The default configuration: [SIMULATE = True].  The simulated spectrum
    is sampled with zero noise; [hypot] and [atan2_deg] are stand-ins, as
    none of the properties checked with these environments depends on the
    derived magnitude and phase. *)
Definition env_sim : Env :=
  mkEnv true false false (fun q => q) false false (fun _ _ => false)
        (fun _ => None) (fun _ => None) (fun _ => (1 # 10000, 0))
        (fun x _ => x) (fun _ _ => 0).

(** The laboratory configuration, all instruments answering; status bit 4
    (overload) is set at 650 nm. *)
Definition env_lab : Env :=
  mkEnv false true true (fun q => q) true true (fun _ _ => true)
        (fun w => Some (if Qeq_bool w 650 then 16 else 0)%Z)
        (fun _ => Some (3, 4)) (fun _ => (0, 0))
        (fun x _ => x) (fun _ _ => 0).

(** * Generic frame reasoning: a relation on states preserved by a method *)

Section Pres.
Variable R : St -> St -> Prop.
Hypothesis R_refl : forall s, R s s.
Hypothesis R_trans : forall s1 s2 s3, R s1 s2 -> R s2 s3 -> R s1 s3.

Definition pres {A} (m : M A) : Prop := forall s, R s (snd (m s)).

Lemma pres_ret {A} (a : A) : pres (ret a).
Proof. intro s; apply R_refl. Qed.

Lemma pres_raise {A} (e : exn) : pres (@raise A e).
Proof. intro s; apply R_refl. Qed.

Lemma pres_get : pres get.
Proof. intro s; apply R_refl. Qed.

Lemma pres_bind {A B} (m : M A) (f : A -> M B) :
  pres m -> (forall a, pres (f a)) -> pres (bind m f).
Proof.
  intros Hm Hf s; unfold bind; specialize (Hm s).
  destruct (m s) as [[a|e] s1]; simpl in *; [|exact Hm].
  eapply R_trans; [exact Hm | apply Hf].
Qed.

Lemma pres_try_finally {A} (body : M A) (fin : M unit) :
  pres body -> pres fin -> pres (try_finally body fin).
Proof.
  intros Hb Hf s; unfold try_finally; specialize (Hb s).
  destruct (body s) as [r s1]; simpl in *; specialize (Hf s1).
  destruct (fin s1) as [[u|e] s2]; simpl in *; eapply R_trans; eauto.
Qed.
End Pres.

(** Splits a method into its primitive steps; [prim] closes the
    primitive ones. *)
Ltac pres_go Hrefl Htrans prim :=
  repeat first
    [ apply (pres_bind _ Htrans); intros
    | apply (pres_try_finally _ Htrans)
    | apply (pres_ret _ Hrefl)
    | apply (pres_raise _ Hrefl)
    | apply (pres_get _ Hrefl)
    | match goal with |- pres _ (if ?b then _ else _) => destruct b end
    | match goal with |- pres _ (match ?x with _ => _ end) => destruct x end
    | solve [prim] ].

(** Relations used below. *)
Definition no_fechar (e : event) : bool :=
  match e with EvMonoFechar | EvLockFechar => false | _ => true end.

(** The trace only grows, by events that are not shutdown calls. *)
Definition R_tr (s s' : St) : Prop :=
  exists es, trace s' = trace s ++ es /\ forallb no_fechar es = true.
(** The session handles are untouched. *)
Definition R_h (s s' : St) : Prop := lib s' = lib s /\ inst s' = inst s.
(** The dataset is untouched. *)
Definition R_kd (s s' : St) : Prop := dados s' = dados s.
(** The dataset only grows at its end. *)
Definition R_d (s s' : St) : Prop := exists rs, dados s' = dados s ++ rs.

Lemma R_tr_refl s : R_tr s s.
Proof. exists []; rewrite app_nil_r; auto. Qed.
Lemma R_tr_trans s1 s2 s3 : R_tr s1 s2 -> R_tr s2 s3 -> R_tr s1 s3.
Proof.
  intros [e1 [H1 F1]] [e2 [H2 F2]]; exists (e1 ++ e2).
  rewrite H2, H1, app_assoc, forallb_app, F1, F2; auto.
Qed.
Lemma R_h_refl s : R_h s s.
Proof. split; reflexivity. Qed.
Lemma R_h_trans s1 s2 s3 : R_h s1 s2 -> R_h s2 s3 -> R_h s1 s3.
Proof. unfold R_h; intuition congruence. Qed.
Lemma R_kd_refl s : R_kd s s.
Proof. reflexivity. Qed.
Lemma R_kd_trans s1 s2 s3 : R_kd s1 s2 -> R_kd s2 s3 -> R_kd s1 s3.
Proof. unfold R_kd; congruence. Qed.
Lemma R_d_refl s : R_d s s.
Proof. exists []; rewrite app_nil_r; auto. Qed.
Lemma R_d_trans s1 s2 s3 : R_d s1 s2 -> R_d s2 s3 -> R_d s1 s3.
Proof.
  intros [r1 H1] [r2 H2]; exists (r1 ++ r2); rewrite H2, H1, app_assoc; auto.
Qed.

(** Closes a primitive state update for any of the four relations. *)
Ltac prim_tac :=
  intro; simpl;
  first [ exists []; rewrite app_nil_r; split; reflexivity
        | eexists; split; [reflexivity|reflexivity]
        | split; reflexivity
        | reflexivity
        | exists []; rewrite app_nil_r; reflexivity
        | eexists; reflexivity ].

Ltac pres_tr := pres_go R_tr_refl R_tr_trans prim_tac.
Ltac pres_h := pres_go R_h_refl R_h_trans prim_tac.
Ltac pres_kd := pres_go R_kd_refl R_kd_trans prim_tac.
Ltac pres_d := pres_go R_d_refl R_d_trans prim_tac.

Ltac unfold_all :=
  unfold passo, mover_para, enviar_comando, verificar_status,
         auto_sensitivity, ler_XY, inst_write, time_sleep, OVERSHOOT.

Lemma passo_tr env te wl : pres R_tr (passo env te wl).
Proof. unfold_all; pres_tr. Qed.

Lemma passo_h env te wl : pres R_h (passo env te wl).
Proof. unfold_all; pres_h. Qed.

Lemma passo_d env te wl : pres R_d (passo env te wl).
Proof. unfold_all; pres_d. Qed.

Section Loop.
Variable R : St -> St -> Prop.
Hypothesis R_refl : forall s, R s s.
Hypothesis R_trans : forall s1 s2 s3, R s1 s2 -> R s2 s3 -> R s1 s3.

Lemma laco_pres env te :
  (forall wl, pres R (passo env te wl)) -> forall l, pres R (laco env te l).
Proof.
  intros Hp l; induction l as [|wl l IH]; simpl.
  - apply (pres_ret _ R_refl).
  - apply (pres_bind _ R_trans); auto.
Qed.

Lemma corpo_pres env a b k t :
  (forall te wl, pres R (passo env te wl)) -> pres R (corpo env a b k t).
Proof.
  intro Hp; unfold corpo; destruct (py_range a (b + 1) k).
  - apply laco_pres; auto.
  - apply (pres_raise _ R_refl).
Qed.
End Loop.

Lemma preparar_tr env t : pres R_tr (preparar env t).
Proof.
  unfold preparar, mono_inicializar, lockin_conectar, lockin_configurar, inst_write.
  pres_tr.
Qed.

Lemma preparar_kd env t : pres R_kd (preparar env t).
Proof.
  unfold preparar, mono_inicializar, lockin_conectar, lockin_configurar, inst_write.
  pres_kd.
Qed.

Lemma finalizar_kd env : pres R_kd (finalizar env).
Proof. unfold finalizar, mono_fechar, lockin_fechar; pres_kd. Qed.

(** When the three setup calls return, the session handles exist (or the
    configuration is simulated). *)
Lemma preparar_ok_handles env t s u s0 :
  preparar env t s = (Ok u, s0) ->
  SIMULATE env = true \/ (lib s0 = true /\ inst s0 = true).
Proof.
  unfold preparar, mono_inicializar, lockin_conectar, lockin_configurar,
         inst_write, bind, ret, raise, get, set_lib, set_inst, set_tau.
  intro H; destruct (SIMULATE env); [left; reflexivity | right].
  destruct (lib_loads env), (bi_init_ok env), (open_ok env), (idn_ok env);
    cbn in H; try discriminate;
    repeat (destruct (write_ok env _ _); cbn in H; try discriminate);
    inversion H; subst; cbn; auto.
Qed.

(** Events of the [finally] block when both shutdowns return. *)
Definition fin_events (env : Env) : list event :=
  if SIMULATE env then [EvMonoFechar; EvLockFechar]
  else [EvMonoFechar; EvPark; EvCloseSystem; EvLockFechar; EvInstClose].

Lemma finalizar_ok env s :
  SIMULATE env = true \/ (lib s = true /\ inst s = true) ->
  finalizar env s =
  (Ok tt, mkSt (current_lambda s) (lib s) (inst s) (tau s) (dados s)
               (trace s ++ fin_events env)).
Proof.
  unfold finalizar, mono_fechar, lockin_fechar, fin_events, bind, emit, get, ret.
  intros [H|[H1 H2]]; rewrite ?H; cbn.
  - rewrite <- app_assoc; reflexivity.
  - destruct (SIMULATE env); cbn; [rewrite <- app_assoc; reflexivity|].
    rewrite H1, H2; cbn; rewrite <- !app_assoc; reflexivity.
Qed.

Lemma executar_unfold env a b k t s :
  executar_varredura env a b k t s =
  match preparar env t s with
  | (Ok _, s0) => try_finally (corpo env a b k t) (finalizar env) s0
  | (Err e, s0) => (Err e, s0)
  end.
Proof. reflexivity. Qed.

Lemma count_ev_app e t1 t2 : count_ev e (t1 ++ t2) = (count_ev e t1 + count_ev e t2)%nat.
Proof. unfold count_ev; rewrite filter_app, length_app; reflexivity. Qed.

Lemma count_no_fechar es :
  forallb no_fechar es = true ->
  count_ev EvMonoFechar es = O /\ count_ev EvLockFechar es = O.
Proof.
  induction es as [|e es IH]; simpl; [auto|].
  intro H; apply andb_prop in H as [He Hes]; destruct (IH Hes) as [H1 H2].
  unfold count_ev in *; destruct e; simpl in *; try discriminate; auto.
Qed.

Lemma R_tr_counts s s' :
  R_tr s s' ->
  count_ev EvMonoFechar (trace s') = count_ev EvMonoFechar (trace s) /\
  count_ev EvLockFechar (trace s') = count_ev EvLockFechar (trace s).
Proof.
  intros [es [Ht Hf]]; rewrite Ht, !count_ev_app.
  destruct (count_no_fechar es Hf) as [-> ->]; split; lia.
Qed.

Lemma fin_events_counts env :
  count_ev EvMonoFechar (fin_events env) = 1%nat /\
  count_ev EvLockFechar (fin_events env) = 1%nat.
Proof. unfold fin_events; destruct (SIMULATE env); split; reflexivity. Qed.

(** The laboratory configuration where the monochromator initialises but
    the GPIB resource of the lock-in cannot be opened. *)
Definition env_lab_no_gpib : Env :=
  mkEnv false true true (fun q => q) false false (fun _ _ => false)
        (fun _ => None) (fun _ => None) (fun _ => (0, 0))
        (fun x _ => x) (fun _ _ => 0).

(** * C1: shutdown on the exit paths of [executar_varredura] *)

(** C1 (counterexample): with the laboratory configuration, when
    [lockin.conectar] fails after [mono.inicializar] succeeded, the sweep
    raises and [mono.fechar] is never invoked: the three setup calls sit
    before the [try]. *)
Lemma C1_connect_failure_skips_shutdown :
  fst (mono_inicializar env_lab_no_gpib experimento_init) = Ok tt /\
  fst (executar_varredura env_lab_no_gpib 400 800 5 (3 # 10) experimento_init)
    = Err VisaError /\
  count_ev EvMonoFechar
    (trace (snd (executar_varredura env_lab_no_gpib 400 800 5 (3 # 10)
                   experimento_init))) = O /\
  count_ev EvLockFechar
    (trace (snd (executar_varredura env_lab_no_gpib 400 800 5 (3 # 10)
                   experimento_init))) = O.
Proof. vm_compute; repeat split; reflexivity. Qed.

(** C1 (amended): if [mono.inicializar], [lockin.conectar] and
    [lockin.configurar_experimento] all return, then whatever happens in
    the [try] body (normal completion, an exception from [range], a move,
    a wait, a status query, a rescale, a read or the magnitude
    computation), [executar_varredura] invokes
    [mono.fechar] exactly once and [lockin.fechar] exactly once; if one of
    those three setup calls raises, neither shutdown is invoked. *)
Theorem C1_shutdown_once_after_setup env a b k t s :
  let s' := snd (executar_varredura env a b k t s) in
  match fst (preparar env t s) with
  | Ok _ =>
      count_ev EvMonoFechar (trace s') = S (count_ev EvMonoFechar (trace s)) /\
      count_ev EvLockFechar (trace s') = S (count_ev EvLockFechar (trace s))
  | Err _ =>
      count_ev EvMonoFechar (trace s') = count_ev EvMonoFechar (trace s) /\
      count_ev EvLockFechar (trace s') = count_ev EvLockFechar (trace s)
  end.
Proof.
  simpl; rewrite executar_unfold.
  pose proof (preparar_tr env t s) as Htr0.
  destruct (preparar env t s) as [[u|e] s0] eqn:Hp; simpl in *.
  - apply preparar_ok_handles in Hp.
    destruct (R_tr_counts _ _ Htr0) as [Hm0 Hl0].
    unfold try_finally.
    pose proof (corpo_pres R_tr R_tr_refl R_tr_trans env a b k t
                  (fun te wl => passo_tr env te wl) s0) as Htr1.
    pose proof (corpo_pres R_h R_h_refl R_h_trans env a b k t
                  (fun te wl => passo_h env te wl) s0) as Hh1.
    destruct (corpo env a b k t s0) as [r s1]; simpl in *.
    destruct (R_tr_counts _ _ Htr1) as [Hm1 Hl1].
    destruct Hh1 as [Hlib Hinst].
    rewrite finalizar_ok by (rewrite Hlib, Hinst; exact Hp); simpl.
    destruct (fin_events_counts env) as [Fm Fl].
    rewrite !count_ev_app, Fm, Fl; split; lia.
  - exact (R_tr_counts _ _ Htr0).
Qed.

(** The laboratory configuration where [inst.write("AS")] fails while the
    other writes succeed; status bit 4 is set at 650 nm, as in [env_lab]. *)
Definition env_lab_as_fail : Env :=
  mkEnv false true true (fun q => q) true true
        (fun c _ => match c with CmdAS => false | _ => true end)
        (fun w => Some (if Qeq_bool w 650 then 16 else 0)%Z)
        (fun _ => Some (3, 4)) (fun _ => (0, 0))
        (fun x _ => x) (fun _ _ => 0).

(** The laboratory configuration whose XY reading is beyond the range
    where [x**2] is a float. *)
Definition env_lab_huge_xy : Env :=
  mkEnv false true true (fun q => q) true true (fun _ _ => true)
        (fun _ => Some 0%Z)
        (fun _ => Some (inject_Z (10 ^ 200), 0)) (fun _ => (0, 0))
        (fun x _ => x) (fun _ _ => 0).

(** Exits of the [try] body after a successful setup, each followed by one
    [mono.fechar] and one [lockin.fechar]: a failed rescale at 650 nm
    ([VisaError]), a negative wait [tau * 5] ([ValueError] from
    [time.sleep]), and a reading whose square leaves the float range
    ([OverflowError]). *)
Lemma sweep_exits_after_setup_shut_down :
  (fst (preparar env_lab_as_fail (3 # 10) experimento_init) = Ok tt /\
   fst (executar_varredura env_lab_as_fail 640 660 10 (3 # 10) experimento_init)
     = Err VisaError /\
   count_ev EvMonoFechar (trace (snd (executar_varredura env_lab_as_fail 640 660 10
                                       (3 # 10) experimento_init))) = 1%nat /\
   count_ev EvLockFechar (trace (snd (executar_varredura env_lab_as_fail 640 660 10
                                       (3 # 10) experimento_init))) = 1%nat) /\
  (fst (preparar env_lab (-1) experimento_init) = Ok tt /\
   fst (executar_varredura env_lab 400 400 5 (-1) experimento_init) = Err ValueError /\
   count_ev EvMonoFechar (trace (snd (executar_varredura env_lab 400 400 5 (-1)
                                       experimento_init))) = 1%nat /\
   count_ev EvLockFechar (trace (snd (executar_varredura env_lab 400 400 5 (-1)
                                       experimento_init))) = 1%nat) /\
  (fst (preparar env_lab_huge_xy (3 # 10) experimento_init) = Ok tt /\
   fst (executar_varredura env_lab_huge_xy 400 400 5 (3 # 10) experimento_init)
     = Err OverflowError /\
   count_ev EvMonoFechar (trace (snd (executar_varredura env_lab_huge_xy 400 400 5
                                       (3 # 10) experimento_init))) = 1%nat /\
   count_ev EvLockFechar (trace (snd (executar_varredura env_lab_huge_xy 400 400 5
                                       (3 # 10) experimento_init))) = 1%nat).
Proof. vm_compute; repeat split; reflexivity. Qed.

(** * Per-step trace structure *)

Lemma bind_ok {A B} (m : M A) (f : A -> M B) s a s1 :
  m s = (Ok a, s1) -> bind m f s = f a s1.
Proof. intro H; unfold bind; rewrite H; reflexivity. Qed.

Lemma bind_err {A B} (m : M A) (f : A -> M B) s e s1 :
  m s = (Err e, s1) -> bind m f s = (Err e, s1).
Proof. intro H; unfold bind; rewrite H; reflexivity. Qed.

(** [s] with [e] appended to its trace. *)
Definition with_ev (s : St) (e : event) : St :=
  mkSt (current_lambda s) (lib s) (inst s) (tau s) (dados s) (trace s ++ [e]).

Lemma bind_emit {B} e (f : unit -> M B) s : bind (emit e) f s = f tt (with_ev s e).
Proof. reflexivity. Qed.

(** Case analysis on the branches a run took, then read off its result. *)
Ltac chase H :=
  repeat (cbn in H;
          match type of H with
          | context [if ?b then _ else _] => destruct b eqn:?
          | context [match ?x with Some _ => _ | None => _ end] => destruct x eqn:?
          end);
  cbn in H; inversion H; subst;
  first [reflexivity | unfold with_ev; f_equal; congruence].

(** The status query, the rescale and the read only record their call. *)
Lemma verificar_status_eff env w s r s' :
  verificar_status env w s = (r, s') -> s' = with_ev s (EvStatus w).
Proof. unfold verificar_status, bind, emit, get, ret, raise; cbn; intro H; chase H. Qed.

Lemma auto_sensitivity_eff env s r s' :
  auto_sensitivity env s = (r, s') -> s' = with_ev s EvAutoSens.
Proof. unfold auto_sensitivity, inst_write, bind, emit, get, ret, raise; cbn; intro H; chase H. Qed.

Lemma ler_XY_eff env w s r s' :
  ler_XY env w s = (r, s') -> s' = with_ev s (EvReadXY w).
Proof. unfold ler_XY, bind, emit, get, ret, raise; cbn; intro H; chase H. Qed.

(** Events a move issues: wavelength commands and the 0.1 s
    mechanical-settle pause. *)
Definition is_move_ev (e : event) : bool :=
  match e with
  | EvSelect _ => true
  | EvSleep d => Qeq_bool d (1 # 10)
  | _ => false
  end.

Definition R_mv (s s' : St) : Prop :=
  exists mv, trace s' = trace s ++ mv /\ forallb is_move_ev mv = true.
Lemma R_mv_refl s : R_mv s s.
Proof. exists []; rewrite app_nil_r; auto. Qed.
Lemma R_mv_trans s1 s2 s3 : R_mv s1 s2 -> R_mv s2 s3 -> R_mv s1 s3.
Proof.
  intros [e1 [H1 F1]] [e2 [H2 F2]]; exists (e1 ++ e2).
  rewrite H2, H1, app_assoc, forallb_app, F1, F2; auto.
Qed.

(** The trace only grows. *)
Definition R_g (s s' : St) : Prop := exists es, trace s' = trace s ++ es.
Lemma R_g_refl s : R_g s s.
Proof. exists []; rewrite app_nil_r; auto. Qed.
Lemma R_g_trans s1 s2 s3 : R_g s1 s2 -> R_g s2 s3 -> R_g s1 s3.
Proof. intros [e1 H1] [e2 H2]; exists (e1 ++ e2); rewrite H2, H1, app_assoc; auto. Qed.

Lemma mover_para_mv env q : pres R_mv (mover_para env q).
Proof. unfold mover_para, enviar_comando, OVERSHOOT; pres_go R_mv_refl R_mv_trans prim_tac. Qed.

Lemma mover_para_h env q : pres R_h (mover_para env q).
Proof. unfold mover_para, enviar_comando; pres_h. Qed.

Lemma mover_para_kd env q : pres R_kd (mover_para env q).
Proof. unfold mover_para, enviar_comando; pres_kd. Qed.

(** The wavelength [mover_para] returns. *)
Definition achieved (env : Env) (q : Q) : Q :=
  if SIMULATE env then q else select env q.

Lemma mover_para_result env q s w s1 :
  mover_para env q s = (Ok w, s1) -> w = achieved env q.
Proof.
  unfold mover_para, achieved, enviar_comando, bind, get, ret, raise, emit,
         set_current_lambda; intro H.
  destruct (SIMULATE env); cbn in H; [inversion H; reflexivity|].
  chase H.
Qed.

Lemma bind_assoc_at {A B C} (m : M A) (f : A -> M B) (g : B -> M C) s :
  bind (bind m f) g s = bind m (fun a => bind (f a) g) s.
Proof. unfold bind; destruct (m s) as [[a|e] s1]; reflexivity. Qed.

Lemma Qlt_bool_spec a b : qlt a b = true <-> a < b.
Proof.
  unfold qlt; rewrite negb_true_iff; split; intro H.
  - apply Qnot_le_lt; intro H'; apply Qle_bool_iff in H'; congruence.
  - destruct (Qle_bool b a) eqn:E; [|reflexivity].
    apply Qle_bool_iff in E; exfalso; apply (Qlt_not_le _ _ H E).
Qed.

(** * C2: the settling wait of a step *)

Lemma bind_sleep {B} d (f : unit -> M B) s :
  bind (time_sleep d) f s =
  match sleep_check d with
  | Some e => (Err e, s)
  | None => f tt (with_ev s (EvSleep d))
  end.
Proof. unfold time_sleep; destruct (sleep_check d); reflexivity. Qed.

(** C2 (counterexample): in the simulated configuration ([SIMULATE =
    True], the default) with tau = 0.3, the only wait before the
    saturation query of the step at 400 nm lasts 0.05 s, not 5 * tau =
    1.5 s; and in the laboratory configuration with tau = -1,
    [time.sleep(-5)] raises ValueError right after the move: no wait
    elapses and the step makes no query and no read. *)
Lemma C2_sim_wait_is_fixed :
  trace (snd (executar_varredura env_sim 400 400 5 (3 # 10) experimento_init)) =
    [EvSleep (1 # 20); EvStatus 400; EvReadXY 400; EvMonoFechar; EvLockFechar] /\
  ~ (1 # 20 == 5 * (3 # 10)) /\
  fst (executar_varredura env_lab 400 400 5 (-1) experimento_init) = Err ValueError /\
  trace (snd (executar_varredura env_lab 400 400 5 (-1) experimento_init)) =
    [EvSelect 400; EvMonoFechar; EvPark; EvCloseSystem; EvLockFechar; EvInstClose].
Proof.
  split; [vm_compute; reflexivity|split; [|split; vm_compute; reflexivity]].
  unfold Qeq; simpl; discriminate.
Qed.

(** C2 (amended): in every sweep step ([passo] with the wait time
    [tau * 5] that [executar_varredura] passes), the step's events are the
    move's events (wavelength commands and the 0.1 s backlash pause),
    then, unless the move raised, the call [time.sleep(d)] with
    [d = tau * 5] in the laboratory configuration and [d = 0.05] in the
    simulated one, before anything else.  When [time.sleep] accepts [d]
    the wait of [d] seconds is the first event after the move, so the
    saturation query and the read come after it; when it refuses [d]
    ([sleep_check]: ValueError for a negative length, OverflowError
    beyond the 64-bit nanosecond range) the step raises that exception
    with no further event.  [sleep_check (1 # 20) = None]: the simulated
    wait always elapses. *)
Theorem C2_settle_wait_precedes_queries env t wl s :
  exists mv post,
    trace (snd (passo env (t * 5) wl s)) = trace s ++ mv ++ post /\
    forallb is_move_ev mv = true /\
    match fst (mover_para env (inject_Z wl) s) with
    | Err e => post = [] /\ fst (passo env (t * 5) wl s) = Err e
    | Ok _ =>
        match sleep_check (if SIMULATE env then 1 # 20 else t * 5) with
        | Some e => post = [] /\ fst (passo env (t * 5) wl s) = Err e
        | None =>
            exists rest, post = EvSleep (if SIMULATE env then 1 # 20 else t * 5) :: rest
        end
    end.
Proof.
  unfold passo.
  pose proof (mover_para_mv env (inject_Z wl) s) as Hmv.
  destruct (mover_para env (inject_Z wl) s) as [[w|e] s1] eqn:Hm;
    simpl in Hmv; destruct Hmv as [mv [Ht Hf]]; cbn [fst].
  - rewrite (bind_ok _ _ _ _ _ Hm), bind_sleep; unfold espera.
    destruct (sleep_check (if SIMULATE env then 1 # 20 else t * 5)) as [e|] eqn:Hs.
    + exists mv, []; rewrite app_nil_r; cbn; auto.
    + match goal with
      | |- context [trace (snd (?K (with_ev s1 ?e)))] =>
          assert (HK : pres R_g K)
            by (unfold verificar_status, auto_sensitivity, ler_XY,
                  inst_write, time_sleep;
                pres_go R_g_refl R_g_trans prim_tac);
          destruct (HK (with_ev s1 e)) as [es Hes]
      end.
      exists mv, (EvSleep (if SIMULATE env then 1 # 20 else t * 5) :: es).
      split; [|split; [exact Hf|eexists; reflexivity]].
      rewrite Hes; cbn; rewrite Ht, <- !app_assoc; reflexivity.
  - rewrite (bind_err _ _ _ _ _ Hm); simpl.
    exists mv, []; rewrite app_nil_r; auto.
Qed.

(** * C4: single rescale on overload *)

(** C4: a sweep step that returns has, after its move, exactly the events
    [wait; status query], then [auto_sensitivity; wait] if and only if the
    query reported overload, then the read: one rescale and one extra wait
    on overload, none otherwise, and no second saturation query. *)
Theorem C4_single_rescale env te wl s :
  fst (passo env te wl s) = Ok tt ->
  exists w s1 ov s3,
    mover_para env (inject_Z wl) s = (Ok w, s1) /\
    verificar_status env w (with_ev s1 (EvSleep (espera env te))) = (Ok ov, s3) /\
    trace (snd (passo env te wl s)) =
      trace s1 ++ [EvSleep (espera env te); EvStatus w] ++
      (if ov then [EvAutoSens; EvSleep (espera env te)] else []) ++ [EvReadXY w].
Proof.
  unfold passo; intro H.
  destruct (mover_para env (inject_Z wl) s) as [[w|e] s1] eqn:Hm;
    [|rewrite (bind_err _ _ _ _ _ Hm) in H; discriminate].
  rewrite (bind_ok _ _ _ _ _ Hm), bind_sleep in *.
  destruct (sleep_check (espera env te)) as [e|] eqn:Hs; [discriminate|].
  destruct (verificar_status env w (with_ev s1 (EvSleep (espera env te))))
    as [[ov|e] s3] eqn:Hv; [|rewrite (bind_err _ _ _ _ _ Hv) in H; discriminate].
  rewrite (bind_ok _ _ _ _ _ Hv) in *.
  exists w, s1, ov, s3; split; [reflexivity|split; [exact Hv|]].
  apply verificar_status_eff in Hv; subst s3.
  destruct ov.
  - rewrite bind_assoc_at in *.
    match type of H with context [bind (auto_sensitivity env) _ ?st] =>
      destruct (auto_sensitivity env st) as [[u|e] s4] eqn:Ha;
        [|rewrite (bind_err _ _ _ _ _ Ha) in H; discriminate]
    end.
    rewrite (bind_ok _ _ _ _ _ Ha), bind_sleep, Hs in *.
    apply auto_sensitivity_eff in Ha; subst s4.
    match type of H with context [bind (ler_XY env w) _ ?st] =>
      destruct (ler_XY env w st) as [[xy|e] s5] eqn:Hr;
        [|rewrite (bind_err _ _ _ _ _ Hr) in H; discriminate]
    end.
    rewrite (bind_ok _ _ _ _ _ Hr) in *.
    apply ler_XY_eff in Hr; subst s5.
    destruct xy as [x y]; cbn; destruct (magnitude_overflows env x y); cbn;
      rewrite <- !app_assoc; reflexivity.
  - rewrite (bind_ok (ret tt) _ _ tt _ eq_refl) in *.
    match type of H with context [bind (ler_XY env w) _ ?st] =>
      destruct (ler_XY env w st) as [[xy|e] s5] eqn:Hr;
        [|rewrite (bind_err _ _ _ _ _ Hr) in H; discriminate]
    end.
    rewrite (bind_ok _ _ _ _ _ Hr) in *.
    apply ler_XY_eff in Hr; subst s5.
    destruct xy as [x y]; cbn; destruct (magnitude_overflows env x y); cbn;
      rewrite <- !app_assoc; reflexivity.
Qed.

(** * C3 and C10: backlash compensation in [mover_para] *)

(** C3 (counterexample): in the simulated configuration, a move to 480 nm
    after a move to 500 nm issues no wavelength command at all, hence no
    overshoot move to 478 nm and no pause. *)
(** Simulated state after a move to 500 nm. *)
Definition st_sim_at_500 : St := snd (mover_para env_sim 500 experimento_init).



(** C10: in the simulated configuration a move to any [q] (also below the
    last position) issues no command and no pause (the trace is
    unchanged), returns exactly [q] and records [q] as [current_lambda]. *)
Theorem C10_sim_move_exact env q s :
  SIMULATE env = true ->
  mover_para env q s =
    (Ok q, mkSt (Some q) (lib s) (inst s) (tau s) (dados s) (trace s)).
Proof.
  intro Hsim; unfold mover_para, bind, ret, set_current_lambda; rewrite Hsim.
  reflexivity.
Qed.

(** * C7: the shutdown methods *)

(** The laboratory configuration where the monochromator library does not
    load and the GPIB resource cannot be opened. *)
Definition env_lab_offline : Env :=
  mkEnv false false false (fun q => q) false false (fun _ _ => false)
        (fun _ => None) (fun _ => None) (fun _ => (0, 0))
        (fun x _ => x) (fun _ _ => 0).

(** C7 (counterexample): in the laboratory configuration, after
    [inicializar] failed to load the library and [conectar] failed to open
    the resource, [mono.fechar()] and [lockin.fechar()] raise
    (AttributeError on [None]). *)
(** State after both session attempts failed. *)
Definition st_offline : St :=
  snd (lockin_conectar env_lab_offline
         (snd (mono_inicializar env_lab_offline experimento_init))).

Lemma C7_shutdown_raises_without_session :
  fst (mono_inicializar env_lab_offline experimento_init) = Err OSError /\
  fst (lockin_conectar env_lab_offline
         (snd (mono_inicializar env_lab_offline experimento_init))) = Err VisaError /\
  fst (mono_fechar env_lab_offline st_offline) = Err AttributeError /\
  fst (lockin_fechar env_lab_offline st_offline) = Err AttributeError.
Proof. vm_compute; repeat split; reflexivity. Qed.

(** C7 (amended): [mono.fechar()] returns without raising exactly when the
    configuration is simulated or [mono.lib] was set (the library loaded,
    even if [BI_initialise] then failed), and raises AttributeError
    otherwise; [lockin.fechar()] likewise with [lockin.inst] (the resource
    was opened, even if the identification query then failed).  Neither
    call changes the handles, so a repeated call behaves the same. *)
Theorem C7_shutdown_outcome env s :
  fst (mono_fechar env s) =
    (if SIMULATE env || lib s then Ok tt else Err AttributeError) /\
  lib (snd (mono_fechar env s)) = lib s /\
  fst (lockin_fechar env s) =
    (if SIMULATE env || inst s then Ok tt else Err AttributeError) /\
  inst (snd (lockin_fechar env s)) = inst s.
Proof.
  unfold mono_fechar, lockin_fechar, bind, emit, get, ret, raise; cbn.
  destruct (SIMULATE env), (lib s), (inst s); cbn; auto.
Qed.

(** * The dataset [self.dados] *)

(** The row a successful step at [wl] appends. *)
Definition row_at (env : Env) (wl : Z) (x y : Q) : row :=
  mkRow (achieved env (inject_Z wl)) x y (hypot env x y) (atan2_deg env x y).

Lemma passo_dados env te wl s r s' :
  passo env te wl s = (r, s') ->
  match r with
  | Ok _ => exists x y, dados s' = dados s ++ [row_at env wl x y]
  | Err _ => dados s' = dados s
  end.
Proof.
  unfold passo; intro H.
  pose proof (mover_para_kd env (inject_Z wl) s) as Hk.
  destruct (mover_para env (inject_Z wl) s) as [[w|e] s1] eqn:Hm; simpl in Hk;
    [|rewrite (bind_err _ _ _ _ _ Hm) in H; inversion H; subst; exact Hk].
  pose proof (mover_para_result _ _ _ _ _ Hm) as Hw; subst w.
  rewrite (bind_ok _ _ _ _ _ Hm), bind_sleep in H.
  destruct (sleep_check (espera env te)) as [e|] eqn:Hs; [inversion H; subst; exact Hk|].
  match type of H with context [bind (verificar_status env ?w) _ ?st] =>
    destruct (verificar_status env w st) as [[ov|e] s3] eqn:Hv;
    [rewrite (bind_ok _ _ _ _ _ Hv) in H | rewrite (bind_err _ _ _ _ _ Hv) in H];
    apply verificar_status_eff in Hv; subst s3
  end; [|inversion H; subst; cbn; exact Hk].
  destruct ov; [rewrite bind_assoc_at in H;
                match type of H with context [bind (auto_sensitivity env) _ ?st] =>
                  destruct (auto_sensitivity env st) as [[u|e] s4] eqn:Ha;
                  [rewrite (bind_ok _ _ _ _ _ Ha), bind_sleep, Hs in H
                  | rewrite (bind_err _ _ _ _ _ Ha) in H];
                  apply auto_sensitivity_eff in Ha; subst s4
                end; [|inversion H; subst; cbn; exact Hk]
               | rewrite (bind_ok (ret tt) _ _ tt _ eq_refl) in H];
  (match type of H with context [bind (ler_XY env ?w) _ ?st] =>
     destruct (ler_XY env w st) as [[xy|e] s5] eqn:Hr;
     [rewrite (bind_ok _ _ _ _ _ Hr) in H | rewrite (bind_err _ _ _ _ _ Hr) in H];
     apply ler_XY_eff in Hr; subst s5
   end; [|inversion H; subst; cbn; exact Hk]);
  destruct xy as [x y]; cbn in H; destruct (magnitude_overflows env x y); cbn in H;
  inversion H; subst; cbn; first [exact Hk|exists x, y; rewrite Hk; reflexivity].
Qed.

(** A loop over [l] that returns appends one row per element of [l], in
    order, with the achieved wavelengths. *)
Lemma laco_ok env te l s s' :
  laco env te l s = (Ok tt, s') ->
  exists recs, dados s' = dados s ++ recs /\
               map r_wl recs = map (fun wl => achieved env (inject_Z wl)) l.
Proof.
  revert s; induction l as [|wl l IH]; intros s H; simpl in H.
  - inversion H; subst; exists []; rewrite app_nil_r; auto.
  - destruct (passo env te wl s) as [[u|e] s1] eqn:Hp;
      [rewrite (bind_ok _ _ _ _ _ Hp) in H | rewrite (bind_err _ _ _ _ _ Hp) in H;
                                             discriminate].
    apply passo_dados in Hp as [x [y Hd]].
    destruct (IH _ H) as [recs [Hr Hm]].
    exists (row_at env wl x y :: recs); split.
    + rewrite Hr, Hd, <- app_assoc; reflexivity.
    + simpl; rewrite Hm; reflexivity.
Qed.

(** A loop that raises failed in the step at some [w]: every earlier step
    returned, no later step ran, and the final state is the state right
    after the failing step. *)
Lemma laco_err env te l s e s' :
  laco env te l s = (Err e, s') ->
  exists pre w post s1,
    l = pre ++ w :: post /\
    laco env te pre s = (Ok tt, s1) /\
    passo env te w s1 = (Err e, s').
Proof.
  revert s; induction l as [|wl l IH]; intros s H; simpl in H; [discriminate|].
  destruct (passo env te wl s) as [[u|e'] s1] eqn:Hp.
  - rewrite (bind_ok _ _ _ _ _ Hp) in H.
    destruct (IH _ H) as [pre [w [post [s2 [Hl [Hpre Hw]]]]]].
    exists (wl :: pre), w, post, s2; split; [rewrite Hl; reflexivity|split; [|exact Hw]].
    simpl; rewrite (bind_ok _ _ _ _ _ Hp); destruct u; exact Hpre.
  - rewrite (bind_err _ _ _ _ _ Hp) in H; inversion H; subst.
    exists [], wl, l, s; repeat split; assumption.
Qed.

(** A completed sweep appended one row per element of the range. *)
Lemma executar_ok_dados env a b k t s :
  fst (executar_varredura env a b k t s) = Ok tt ->
  exists l recs,
    py_range a (b + 1) k = Some l /\
    dados (snd (executar_varredura env a b k t s)) = dados s ++ recs /\
    map r_wl recs = map (fun wl => achieved env (inject_Z wl)) l.
Proof.
  rewrite executar_unfold; intro H.
  pose proof (preparar_kd env t s) as Hk0.
  destruct (preparar env t s) as [[u|e] s0] eqn:Hp; [|discriminate].
  simpl in Hk0; apply preparar_ok_handles in Hp.
  unfold try_finally, corpo in *.
  destruct (py_range a (b + 1) k) as [l|] eqn:Hr.
  - pose proof (laco_pres R_h R_h_refl R_h_trans env (t * 5)
                  (fun wl => passo_h env (t * 5) wl) l s0) as Hh.
    destruct (laco env (t * 5) l s0) as [r s1] eqn:Hl; simpl in Hh.
    destruct Hh as [Hlib Hinst].
    rewrite finalizar_ok in * by (rewrite Hlib, Hinst; exact Hp).
    simpl in H; subst r.
    destruct (laco_ok _ _ _ _ _ Hl) as [recs [Hd Hm]].
    exists l, recs; split; [reflexivity|split; [|exact Hm]].
    simpl; rewrite Hd, Hk0; reflexivity.
  - unfold raise in H; rewrite finalizar_ok in H by exact Hp; discriminate.
Qed.

(** Every run of [executar_varredura], whatever its outcome, leaves the
    rows that were in [self.dados] in place and only adds rows after
    them. *)
Lemma executar_only_appends env a b k t : pres R_d (executar_varredura env a b k t).
Proof.
  unfold executar_varredura.
  apply (pres_bind _ R_d_trans).
  - unfold preparar, mono_inicializar, lockin_conectar, lockin_configurar, inst_write.
    pres_d.
  - intros _; apply (pres_try_finally _ R_d_trans).
    + apply (corpo_pres R_d R_d_refl R_d_trans); intros; apply passo_d.
    + unfold finalizar, mono_fechar, lockin_fechar; pres_d.
Qed.

(** * C5: one record per requested wavelength *)

(** The laboratory configuration with a driver that lands 0.1 nm above
    each requested wavelength. *)
Definition env_lab_quantized : Env :=
  mkEnv false true true (fun q => q + (1 # 10)) true true (fun _ _ => true)
        (fun _ => Some 0%Z) (fun _ => Some (3, 4)) (fun _ => (0, 0))
        (fun x _ => x) (fun _ _ => 0).

(** C5 (counterexample): a second simulated 400-800 nm sweep (step 5) on
    the same [Experimento] completes normally and leaves 162 rows, not the
    81 of its range; and in the laboratory configuration the wavelength
    field of the first row is the achieved 400.1 nm, not 400. *)
(** State after one simulated 400-800 nm sweep on a fresh [Experimento]. *)
Definition st_after_sweep : St :=
  snd (executar_varredura env_sim 400 800 5 (3 # 10) experimento_init).

Lemma C5_dataset_not_one_per_wavelength :
  fst (executar_varredura env_sim 400 800 5 (3 # 10) st_after_sweep) = Ok tt /\
  py_range 400 801 5 = Some (map (fun i => 400 + 5 * Z.of_nat i)%Z (seq 0 81)) /\
  length (dados (snd (executar_varredura env_sim 400 800 5 (3 # 10) st_after_sweep)))
    = 162%nat /\
  fst (executar_varredura env_lab_quantized 400 800 5 (3 # 10) experimento_init) = Ok tt /\
  option_map r_wl
    (hd_error (dados (snd (executar_varredura env_lab_quantized 400 800 5 (3 # 10)
                            experimento_init)))) = Some (4001 # 10).
Proof. vm_compute; repeat split; reflexivity. Qed.

(** C5 (amended): a sweep that completes normally appends to [self.dados]
    exactly one row per element of [range(start, end + 1, step)], in that
    order, whose wavelength field is the wavelength the move achieved (the
    requested one in the simulated configuration, the driver's reported
    one in the laboratory); rows already in the dataset stay before them,
    so on a fresh [Experimento] the dataset is exactly these rows. *)
Theorem C5_one_row_per_wavelength env a b k t s :
  fst (executar_varredura env a b k t s) = Ok tt ->
  exists l recs,
    py_range a (b + 1) k = Some l /\
    dados (snd (executar_varredura env a b k t s)) = dados s ++ recs /\
    length recs = length l /\
    map r_wl recs = map (fun wl => achieved env (inject_Z wl)) l.
Proof.
  intro H; destruct (executar_ok_dados _ _ _ _ _ _ H) as [l [recs [Hr [Hd Hm]]]].
  exists l, recs; repeat split; auto.
  rewrite <- (length_map r_wl recs), Hm, length_map; reflexivity.
Qed.

(** The simulated 400-800 nm sweep with step 5 on a fresh [Experimento]:
    81 rows with wavelengths 400 + 5 i. *)
Lemma sweep_400_800_rows :
  map r_wl (dados (snd (executar_varredura env_sim 400 800 5 (3 # 10) experimento_init))) =
  map (fun i => inject_Z (400 + 5 * Z.of_nat i)) (seq 0 81).
Proof. vm_compute; reflexivity. Qed.

(** * C8: an error mid-sweep *)

(** C8: once the setup calls returned and [range] produced [l], a sweep
    that raises [e] failed in the step at some wavelength [w] of [l]: all
    steps before [w] completed and appended their rows, the failing step
    appended nothing, no step after [w] ran (after the failing step only
    the [finally] block's calls occur), and the rows appended before the
    failure are in [self.dados], unchanged, for [salvar_e_plotar]. *)
Theorem C8_error_keeps_partial_rows env a b k t s l e :
  fst (preparar env t s) = Ok tt ->
  py_range a (b + 1) k = Some l ->
  fst (executar_varredura env a b k t s) = Err e ->
  exists pre w post s1 s2 recs,
    l = pre ++ w :: post /\
    laco env (t * 5) pre (snd (preparar env t s)) = (Ok tt, s1) /\
    passo env (t * 5) w s1 = (Err e, s2) /\
    dados s2 = dados s ++ recs /\
    map r_wl recs = map (fun wl => achieved env (inject_Z wl)) pre /\
    salvar_e_plotar_rows (snd (executar_varredura env a b k t s)) = dados s ++ recs /\
    trace (snd (executar_varredura env a b k t s)) = trace s2 ++ fin_events env.
Proof.
  intros Hp0 Hr H; rewrite executar_unfold in *.
  pose proof (preparar_kd env t s) as Hk0.
  destruct (preparar env t s) as [[u|e0] s0] eqn:Hp; [|discriminate].
  simpl in Hk0 |- *; apply preparar_ok_handles in Hp.
  unfold try_finally, corpo in *; rewrite Hr in *.
  pose proof (laco_pres R_h R_h_refl R_h_trans env (t * 5)
                (fun wl => passo_h env (t * 5) wl) l s0) as Hh.
  destruct (laco env (t * 5) l s0) as [r s2] eqn:Hl; simpl in Hh.
  destruct Hh as [Hlib Hinst].
  rewrite finalizar_ok in * by (rewrite Hlib, Hinst; exact Hp).
  simpl in H; subst r.
  destruct (laco_err _ _ _ _ _ _ Hl) as [pre [w [post [s1 [Hl' [Hpre Hw]]]]]].
  destruct (laco_ok _ _ _ _ _ Hpre) as [recs [Hd Hm]].
  pose proof (passo_dados _ _ _ _ _ _ Hw) as Hd2; simpl in Hd2.
  exists pre, w, post, s1, s2, recs; repeat split; auto.
  - rewrite Hd2, Hd, Hk0; reflexivity.
  - unfold salvar_e_plotar_rows; simpl; rewrite Hd2, Hd, Hk0; reflexivity.
Qed.

(** * C9: the dataset accumulates across sweeps *)

(** C9: [executar_varredura] never resets [self.dados]: after two
    completed sweeps on the same [Experimento], the dataset is the rows it
    held before, then the first sweep's rows (one per element of its
    range), then the second sweep's rows (one per element of its range). *)
Theorem C9_dataset_accumulates env1 env2 s a1 b1 k1 t1 a2 b2 k2 t2 :
  fst (executar_varredura env1 a1 b1 k1 t1 s) = Ok tt ->
  fst (executar_varredura env2 a2 b2 k2 t2
         (snd (executar_varredura env1 a1 b1 k1 t1 s))) = Ok tt ->
  exists l1 l2 r1 r2,
    py_range a1 (b1 + 1) k1 = Some l1 /\
    py_range a2 (b2 + 1) k2 = Some l2 /\
    length r1 = length l1 /\ length r2 = length l2 /\
    dados (snd (executar_varredura env1 a1 b1 k1 t1 s)) = dados s ++ r1 /\
    dados (snd (executar_varredura env2 a2 b2 k2 t2
                  (snd (executar_varredura env1 a1 b1 k1 t1 s)))) =
      dados s ++ r1 ++ r2.
Proof.
  intros H1 H2.
  destruct (executar_ok_dados _ _ _ _ _ _ H1) as [l1 [r1 [Hr1 [Hd1 Hm1]]]].
  destruct (executar_ok_dados _ _ _ _ _ _ H2) as [l2 [r2 [Hr2 [Hd2 Hm2]]]].
  exists l1, l2, r1, r2; repeat split; auto.
  - rewrite <- (length_map r_wl r1), Hm1, length_map; reflexivity.
  - rewrite <- (length_map r_wl r2), Hm2, length_map; reflexivity.
  - rewrite Hd2, Hd1, app_assoc; reflexivity.
Qed.

(** * Witnesses: the theorems with hypotheses at concrete runs *)

(** The laboratory configuration where the XY read at 410 nm fails. *)
Definition env_lab_read_fail : Env :=
  mkEnv false true true (fun q => q) true true (fun _ _ => true)
        (fun _ => Some 0%Z)
        (fun w => if Qeq_bool w 410 then None else Some (3, 4)) (fun _ => (0, 0))
        (fun x _ => x) (fun _ _ => 0).



(** Laboratory state after the setup calls. *)
Definition st_lab_setup : St := snd (preparar env_lab (3 # 10) experimento_init).

Lemma C4_single_rescale_witness :
  fst (passo env_lab ((3 # 10) * 5) 650 st_lab_setup) = Ok tt /\
  exists w s1 ov s3,
    mover_para env_lab (inject_Z 650) st_lab_setup = (Ok w, s1) /\
    verificar_status env_lab w
      (with_ev s1 (EvSleep (espera env_lab ((3 # 10) * 5)))) = (Ok ov, s3) /\
    trace (snd (passo env_lab ((3 # 10) * 5) 650 st_lab_setup)) =
      trace s1 ++ [EvSleep (espera env_lab ((3 # 10) * 5)); EvStatus w] ++
      (if ov then [EvAutoSens; EvSleep (espera env_lab ((3 # 10) * 5))] else []) ++
      [EvReadXY w].
Proof.
  split; [vm_compute; reflexivity|].
  apply C4_single_rescale; vm_compute; reflexivity.
Defined.

Lemma C5_one_row_per_wavelength_witness :
  fst (executar_varredura env_sim 400 800 5 (3 # 10) experimento_init) = Ok tt /\
  exists l recs,
    py_range 400 (800 + 1) 5 = Some l /\
    dados (snd (executar_varredura env_sim 400 800 5 (3 # 10) experimento_init)) =
      dados experimento_init ++ recs /\
    length recs = length l /\
    map r_wl recs = map (fun wl => achieved env_sim (inject_Z wl)) l.
Proof.
  split; [vm_compute; reflexivity|].
  apply C5_one_row_per_wavelength; vm_compute; reflexivity.
Defined.

Lemma C8_error_keeps_partial_rows_witness :
  fst (preparar env_lab_read_fail (3 # 10) experimento_init) = Ok tt /\
  py_range 400 (420 + 1) 5 = Some [400; 405; 410; 415; 420]%Z /\
  fst (executar_varredura env_lab_read_fail 400 420 5 (3 # 10) experimento_init)
    = Err VisaError /\
  exists pre w post s1 s2 recs,
    [400; 405; 410; 415; 420]%Z = pre ++ w :: post /\
    laco env_lab_read_fail ((3 # 10) * 5) pre
      (snd (preparar env_lab_read_fail (3 # 10) experimento_init)) = (Ok tt, s1) /\
    passo env_lab_read_fail ((3 # 10) * 5) w s1 = (Err VisaError, s2) /\
    dados s2 = dados experimento_init ++ recs /\
    map r_wl recs = map (fun wl => achieved env_lab_read_fail (inject_Z wl)) pre /\
    salvar_e_plotar_rows
      (snd (executar_varredura env_lab_read_fail 400 420 5 (3 # 10) experimento_init))
      = dados experimento_init ++ recs /\
    trace (snd (executar_varredura env_lab_read_fail 400 420 5 (3 # 10)
                  experimento_init)) = trace s2 ++ fin_events env_lab_read_fail.
Proof.
  split; [vm_compute; reflexivity|split; [vm_compute; reflexivity|split; [vm_compute; reflexivity|]]].
  apply C8_error_keeps_partial_rows; vm_compute; reflexivity.
Defined.

Lemma C9_dataset_accumulates_witness :
  fst (executar_varredura env_sim 400 800 5 (3 # 10) experimento_init) = Ok tt /\
  fst (executar_varredura env_sim 400 800 5 (3 # 10)
         (snd (executar_varredura env_sim 400 800 5 (3 # 10) experimento_init))) = Ok tt /\
  exists l1 l2 r1 r2,
    py_range 400 (800 + 1) 5 = Some l1 /\
    py_range 400 (800 + 1) 5 = Some l2 /\
    length r1 = length l1 /\ length r2 = length l2 /\
    dados (snd (executar_varredura env_sim 400 800 5 (3 # 10) experimento_init)) =
      dados experimento_init ++ r1 /\
    dados (snd (executar_varredura env_sim 400 800 5 (3 # 10)
                  (snd (executar_varredura env_sim 400 800 5 (3 # 10) experimento_init)))) =
      dados experimento_init ++ r1 ++ r2.
Proof.
  split; [vm_compute; reflexivity|split; [vm_compute; reflexivity|]].
  apply C9_dataset_accumulates; vm_compute; reflexivity.
Defined.

Lemma C10_sim_move_exact_witness :
  SIMULATE env_sim = true /\
  mover_para env_sim 480 st_sim_at_500 =
    (Ok 480, mkSt (Some 480) (lib st_sim_at_500) (inst st_sim_at_500)
                  (tau st_sim_at_500) (dados st_sim_at_500) (trace st_sim_at_500)).
Proof.
  split; [reflexivity|].
  apply C10_sim_move_exact; reflexivity.
Defined.

(** * Further properties of the code *)

(** ** Simulated sweeps *)

(** The events of one simulated step at [wl]: fixed 0.05 s wait, status
    query, rescale and wait inside the simulated overload window, read. *)
Definition sim_step_events (wl : Z) : list event :=
  let w := inject_Z wl in
  [EvSleep (1 # 20); EvStatus w] ++
  (if qlt 640 w && qlt w 660 then [EvAutoSens; EvSleep (1 # 20)] else []) ++
  [EvReadXY w].

Lemma sleep_check_sim : sleep_check (1 # 20) = None.
Proof. vm_compute; reflexivity. Qed.

(** A simulated step: it raises OverflowError in [ler_XY], after all its
    calls, exactly when [sim_overflow] holds at [wl]. *)
Lemma passo_sim env te wl s :
  SIMULATE env = true ->
  passo env te wl s =
  if sim_overflow (inject_Z wl) then
    (Err OverflowError,
     mkSt (Some (inject_Z wl)) (lib s) (inst s) (tau s) (dados s)
          (trace s ++ sim_step_events wl))
  else
    (Ok tt, mkSt (Some (inject_Z wl)) (lib s) (inst s) (tau s)
                 (dados s ++ [row_at env wl (fst (sim_xy env (inject_Z wl)))
                                            (snd (sim_xy env (inject_Z wl)))])
                 (trace s ++ sim_step_events wl)).
Proof.
  intro Hsim.
  unfold passo, mover_para, verificar_status, auto_sensitivity, ler_XY, espera,
         sim_step_events, row_at, achieved, magnitude_overflows, time_sleep,
         bind, ret, raise, emit, set_current_lambda, append_dados.
  rewrite Hsim, sleep_check_sim; cbn -[sim_overflow].
  destruct (qlt 640 (inject_Z wl) && qlt (inject_Z wl) 660);
    destruct (sim_overflow (inject_Z wl));
    destruct (sim_xy env (inject_Z wl)) as [x y]; cbn;
    rewrite <- ?app_assoc; reflexivity.
Qed.

(** The wavelengths a simulated loop over [l] reaches: up to and including
    the first one at which [ler_XY] overflows. *)
Fixpoint sim_reached (l : list Z) : list Z :=
  match l with
  | [] => []
  | wl :: l' => if sim_overflow (inject_Z wl) then [wl] else wl :: sim_reached l'
  end.

Definition sim_overflows_in (l : list Z) : bool :=
  existsb (fun wl => sim_overflow (inject_Z wl)) l.

Lemma laco_sim env te l s :
  SIMULATE env = true ->
  fst (laco env te l s) =
    (if sim_overflows_in l then Err OverflowError else Ok tt) /\
  trace (snd (laco env te l s)) = trace s ++ concat (map sim_step_events (sim_reached l)) /\
  lib (snd (laco env te l s)) = lib s /\ inst (snd (laco env te l s)) = inst s.
Proof.
  intro Hsim; revert s; induction l as [|wl l IH]; intro s; cbn [laco sim_reached].
  - cbn; rewrite app_nil_r; auto.
  - unfold sim_overflows_in; cbn [existsb]; fold (sim_overflows_in l).
    pose proof (passo_sim env te wl s Hsim) as Hp.
    destruct (sim_overflow (inject_Z wl)); cbn [orb].
    + rewrite (bind_err _ _ _ _ _ Hp); cbn; rewrite app_nil_r; auto.
    + rewrite (bind_ok _ _ _ _ _ Hp).
      match goal with |- context [laco env te l ?st] =>
        destruct (IH st) as [H1 [H2 [H3 H4]]]
      end.
      cbn in *; repeat split; auto.
      rewrite H2, <- app_assoc; reflexivity.
Qed.

(** A simulated run, for a range that [range] accepts. *)
Lemma executar_sim env a b k t s l :
  SIMULATE env = true ->
  py_range a (b + 1) k = Some l ->
  fst (executar_varredura env a b k t s) =
    (if sim_overflows_in l then Err OverflowError else Ok tt) /\
  trace (snd (executar_varredura env a b k t s)) =
    trace s ++ concat (map sim_step_events (sim_reached l)) ++ fin_events env.
Proof.
  intros Hsim Hr; rewrite executar_unfold.
  unfold preparar, mono_inicializar, lockin_conectar, lockin_configurar, bind, ret,
         set_tau.
  rewrite Hsim; cbn.
  unfold try_finally, corpo; rewrite Hr.
  match goal with |- context [laco env (t * 5) l ?st] =>
    destruct (laco_sim env (t * 5) l st Hsim) as [H1 [H2 _]];
    destruct (laco env (t * 5) l st) as [r s1]
  end.
  simpl in H1, H2; subst r.
  rewrite finalizar_ok by (left; exact Hsim); simpl.
  rewrite H2, <- app_assoc; auto.
Qed.

Lemma qlt_inject_Z a b : qlt (inject_Z a) (inject_Z b) = (a <? b)%Z.
Proof.
  unfold qlt, Qle_bool, inject_Z; simpl.
  rewrite !Z.mul_1_r, Z.ltb_antisym; reflexivity.
Qed.

Lemma py_range_some a b k : k <> 0%Z -> exists l, py_range a b k = Some l.
Proof.
  intro Hk; unfold py_range; apply Z.eqb_neq in Hk; rewrite Hk; eauto.
Qed.

(** Events that reach the monochromator driver or the GPIB session. *)
Definition is_hw_ev (e : event) : bool :=
  match e with
  | EvSelect _ | EvPark | EvCloseSystem | EvInstClose => true
  | _ => false
  end.

(** X1: in the simulated configuration, a sweep over a range that
    [range] accepts completes normally exactly when no wavelength of the
    range makes an exponent of the simulated spectrum overflow in
    [ler_XY] ([sim_overflow]: [(wl - 500)**2 / 200] or
    [(wl - 650)**2 / 100] beyond the float range, i.e. [|wl - 500|] above
    about 1.9e155 or [|wl - 650|] above about 1.3e155); otherwise it
    raises OverflowError. *)
Theorem sim_sweep_outcome env a b k t s l :
  SIMULATE env = true -> py_range a (b + 1) k = Some l ->
  fst (executar_varredura env a b k t s) =
    if existsb (fun wl => sim_overflow (inject_Z wl)) l then Err OverflowError else Ok tt.
Proof. intros Hsim Hr; exact (proj1 (executar_sim env a b k t s l Hsim Hr)). Qed.

Lemma sim_sweep_outcome_witness :
  fst (executar_varredura env_sim 400 800 5 (3 # 10) experimento_init) = Ok tt /\
  fst (executar_varredura env_sim (10 ^ 160) (10 ^ 160) 5 (3 # 10) experimento_init)
    = Err OverflowError.
Proof.
  split.
  - rewrite (sim_sweep_outcome env_sim 400 800 5 (3 # 10) experimento_init
               (map (fun i => 400 + 5 * Z.of_nat i)%Z (seq 0 81)) eq_refl
               ltac:(vm_compute; reflexivity)).
    vm_compute; reflexivity.
  - rewrite (sim_sweep_outcome env_sim (10 ^ 160) (10 ^ 160) 5 (3 # 10) experimento_init
               [(10 ^ 160)%Z] eq_refl ltac:(vm_compute; reflexivity)).
    vm_compute; reflexivity.
Defined.

(** X2: a simulated sweep over a range that [range] accepts calls
    [auto_sensitivity] once for each wavelength strictly between 640 and
    660 nm among those it reaches (the whole range, or up to the first
    wavelength at which [ler_XY] overflows), and at no other step. *)
Theorem sim_sweep_rescale_count env a b k t s l :
  SIMULATE env = true ->
  py_range a (b + 1) k = Some l ->
  count_ev EvAutoSens (trace (snd (executar_varredura env a b k t s))) =
    (count_ev EvAutoSens (trace s) +
     length (filter (fun wl => (640 <? wl) && (wl <? 660))%Z (sim_reached l)))%nat.
Proof.
  intros Hsim Hr.
  rewrite (proj2 (executar_sim env a b k t s l Hsim Hr)), !count_ev_app.
  assert (Hf : count_ev EvAutoSens (fin_events env) = O)
    by (unfold fin_events; destruct (SIMULATE env); reflexivity).
  rewrite Hf, Nat.add_0_r; f_equal; clear Hr.
  induction (sim_reached l) as [|wl l' IH]; [reflexivity|].
  cbn [map concat filter]; rewrite count_ev_app, IH.
  assert (E1 : qlt 640 (inject_Z wl) = (640 <? wl)%Z) by exact (qlt_inject_Z 640 wl).
  assert (E2 : qlt (inject_Z wl) 660 = (wl <? 660)%Z) by exact (qlt_inject_Z wl 660).
  unfold sim_step_events; rewrite E1, E2.
  destruct ((640 <? wl) && (wl <? 660))%Z; reflexivity.
Qed.

Lemma sim_sweep_rescale_count_witness :
  count_ev EvAutoSens
    (trace (snd (executar_varredura env_sim 400 800 5 (3 # 10) experimento_init))) = 3%nat /\
  count_ev EvAutoSens
    (trace (snd (executar_varredura env_sim (10 ^ 160) 648 (650 - 10 ^ 160) (3 # 10)
                   experimento_init))) = 0%nat.
Proof.
  split.
  - rewrite (sim_sweep_rescale_count env_sim 400 800 5 (3 # 10) experimento_init
               (map (fun i => 400 + 5 * Z.of_nat i)%Z (seq 0 81)) eq_refl
               ltac:(vm_compute; reflexivity)).
    vm_compute; reflexivity.
  - rewrite (sim_sweep_rescale_count env_sim (10 ^ 160) 648 (650 - 10 ^ 160) (3 # 10)
               experimento_init [(10 ^ 160)%Z; 650%Z] eq_refl
               ltac:(vm_compute; reflexivity)).
    vm_compute; reflexivity.
Defined.

(** X3: a simulated sweep never reaches the hardware: whatever its outcome
    (also with step 0), it issues no monochromator command and no GPIB
    session call. *)
Theorem sim_sweep_no_hardware env a b k t s :
  SIMULATE env = true ->
  exists es,
    trace (snd (executar_varredura env a b k t s)) = trace s ++ es /\
    forallb (fun e => negb (is_hw_ev e)) es = true.
Proof.
  intro Hsim.
  assert (Hfin : forallb (fun e => negb (is_hw_ev e)) (fin_events env) = true)
    by (unfold fin_events; rewrite Hsim; reflexivity).
  destruct (py_range a (b + 1) k) as [l|] eqn:Hr.
  - exists (concat (map sim_step_events (sim_reached l)) ++ fin_events env); split;
      [exact (proj2 (executar_sim env a b k t s l Hsim Hr))|].
    rewrite forallb_app, Hfin, andb_true_r; clear Hr.
    induction (sim_reached l) as [|wl l' IH]; [reflexivity|].
    simpl; rewrite forallb_app, IH, andb_true_r.
    unfold sim_step_events; destruct (qlt 640 _ && qlt _ 660); reflexivity.
  - exists (fin_events env); split; [|exact Hfin].
    rewrite executar_unfold.
    unfold preparar, mono_inicializar, lockin_conectar, lockin_configurar, bind,
           ret, set_tau; rewrite Hsim; cbn.
    unfold try_finally, corpo, raise; rewrite Hr.
    rewrite finalizar_ok by (left; exact Hsim); reflexivity.
Qed.

Lemma sim_sweep_no_hardware_witness :
  SIMULATE env_sim = true /\
  exists es,
    trace (snd (executar_varredura env_sim 400 800 5 (3 # 10) experimento_init)) =
      trace experimento_init ++ es /\
    forallb (fun e => negb (is_hw_ev e)) es = true.
Proof. split; [reflexivity|]. apply sim_sweep_no_hardware; reflexivity. Defined.

(** ** [range] edge cases in [executar_varredura] *)

(** X4: with [step = 0], [range] raises ValueError inside the [try]: once
    the setup calls returned, the sweep raises ValueError, runs no step
    (the only new events are the two shutdowns) and leaves the dataset
    unchanged. *)
Theorem sweep_step_zero env a b t s :
  fst (preparar env t s) = Ok tt ->
  fst (executar_varredura env a b 0 t s) = Err ValueError /\
  dados (snd (executar_varredura env a b 0 t s)) = dados s /\
  trace (snd (executar_varredura env a b 0 t s)) =
    trace (snd (preparar env t s)) ++ fin_events env.
Proof.
  intro H0; rewrite executar_unfold.
  pose proof (preparar_kd env t s) as Hk.
  destruct (preparar env t s) as [[u|e] s0] eqn:Hp; [|discriminate].
  simpl in Hk |- *; apply preparar_ok_handles in Hp.
  unfold try_finally, corpo, raise; cbn [py_range Z.eqb].
  rewrite finalizar_ok by exact Hp; simpl; auto.
Qed.

Lemma sweep_step_zero_witness :
  fst (preparar env_lab (3 # 10) experimento_init) = Ok tt /\
  fst (executar_varredura env_lab 400 800 0 (3 # 10) experimento_init) = Err ValueError /\
  dados (snd (executar_varredura env_lab 400 800 0 (3 # 10) experimento_init)) =
    dados experimento_init /\
  trace (snd (executar_varredura env_lab 400 800 0 (3 # 10) experimento_init)) =
    trace (snd (preparar env_lab (3 # 10) experimento_init)) ++ fin_events env_lab.
Proof.
  split; [vm_compute; reflexivity|].
  apply sweep_step_zero; vm_compute; reflexivity.
Defined.

(** X5: with a positive step and [start > end] the range is empty: once
    the setup calls returned, the sweep completes normally without any
    move, query or read (only the two shutdowns) and the dataset is
    unchanged. *)
Theorem sweep_empty_range env a b k t s :
  fst (preparar env t s) = Ok tt -> (0 < k)%Z -> (b < a)%Z ->
  fst (executar_varredura env a b k t s) = Ok tt /\
  dados (snd (executar_varredura env a b k t s)) = dados s /\
  trace (snd (executar_varredura env a b k t s)) =
    trace (snd (preparar env t s)) ++ fin_events env.
Proof.
  intros H0 Hk Hab.
  assert (Hr : py_range a (b + 1) k = Some []).
  { unfold py_range, range_len.
    replace (k =? 0)%Z with false by (symmetry; apply Z.eqb_neq; lia).
    replace (0 <? k)%Z with true by (symmetry; apply Z.ltb_lt; lia).
    replace (a <? b + 1)%Z with false by (symmetry; apply Z.ltb_ge; lia).
    reflexivity. }
  rewrite executar_unfold.
  pose proof (preparar_kd env t s) as Hkd.
  destruct (preparar env t s) as [[u|e] s0] eqn:Hp; [|discriminate].
  simpl in Hkd |- *; apply preparar_ok_handles in Hp.
  unfold try_finally, corpo; rewrite Hr; cbn [laco].
  unfold ret; rewrite finalizar_ok by exact Hp; simpl; auto.
Qed.

Lemma sweep_empty_range_witness :
  fst (preparar env_lab (3 # 10) experimento_init) = Ok tt /\ (0 < 5)%Z /\ (400 < 800)%Z /\
  fst (executar_varredura env_lab 800 400 5 (3 # 10) experimento_init) = Ok tt /\
  dados (snd (executar_varredura env_lab 800 400 5 (3 # 10) experimento_init)) =
    dados experimento_init /\
  trace (snd (executar_varredura env_lab 800 400 5 (3 # 10) experimento_init)) =
    trace (snd (preparar env_lab (3 # 10) experimento_init)) ++ fin_events env_lab.
Proof.
  split; [vm_compute; reflexivity|split; [lia|split; [lia|]]].
  apply sweep_empty_range; [vm_compute; reflexivity|lia|lia].
Defined.

(** ** The status word of the lock-in *)

Lemma land_16_testbit st : negb (Z.land st 16 =? 0)%Z = Z.testbit st 4.
Proof.
  destruct (Z.testbit st 4) eqn:Hb.
  - apply negb_true_iff, Z.eqb_neq; intro H0.
    assert (Ht : Z.testbit (Z.land st 16) 4 = Z.testbit 0 4) by (rewrite H0; reflexivity).
    rewrite Z.land_spec, Hb in Ht; discriminate.
  - apply negb_false_iff, Z.eqb_eq, Z.bits_inj'; intros n Hn.
    rewrite Z.land_spec, Z.bits_0.
    change 16%Z with (2 ^ 4)%Z; rewrite Z.pow2_bits_eqb by lia.
    destruct (4 =? n)%Z eqn:E; [apply Z.eqb_eq in E; subst n; rewrite Hb|];
      first [reflexivity | apply andb_false_r].
Qed.

(** X6: in the laboratory configuration, [verificar_status] reports
    overload exactly when bit 4 of the integer status word returned by
    the "ST" query is set, whatever the other bits (also for a negative
    word, as Python's [&] works on two's complement). *)
Theorem status_overload_is_bit4 env w s st :
  SIMULATE env = false -> inst s = true -> status_word env w = Some st ->
  fst (verificar_status env w s) = Ok (Z.testbit st 4).
Proof.
  intros Hsim Hinst Hst.
  unfold verificar_status, bind, emit, get, ret; rewrite Hsim; cbn.
  rewrite Hinst, Hst, land_16_testbit; reflexivity.
Qed.

Lemma status_overload_is_bit4_witness :
  SIMULATE env_lab = false /\ inst st_lab_setup = true /\
  status_word env_lab 650 = Some 16%Z /\
  fst (verificar_status env_lab 650 st_lab_setup) = Ok (Z.testbit 16 4).
Proof.
  split; [reflexivity|split; [vm_compute; reflexivity|split; [reflexivity|]]].
  apply status_overload_is_bit4; [reflexivity|vm_compute; reflexivity|reflexivity].
Defined.

(** ** Moves in the laboratory configuration, across steps and sweeps *)


Lemma mover_para_lab_up env q s :
  SIMULATE env = false -> lib s = true ->
  (current_lambda s = None \/ exists c, current_lambda s = Some c /\ c <= q) ->
  mover_para env q s =
  (Ok (select env q),
   mkSt (Some (select env q)) (lib s) (inst s) (tau s) (dados s) (trace s ++ [EvSelect q])).
Proof.
  intros Hsim Hlib Hc; destruct s as [cl lb it ta da tr]; cbn in *; subst lb.
  unfold mover_para, enviar_comando, bind, get, ret, emit, set_current_lambda;
    rewrite Hsim; cbn.
  destruct Hc as [Hc|[c [Hc Hle]]]; subst cl; cbn; [reflexivity|].
  destruct (qlt q c) eqn:Hq;
    [apply Qlt_bool_spec in Hq; exfalso; exact (Qlt_not_le _ _ Hq Hle)|].
  reflexivity.
Qed.

Definition is_select (e : event) : bool :=
  match e with EvSelect _ => true | _ => false end.

(** The position is kept and no wavelength command is issued. *)
Definition R_ns (s s' : St) : Prop :=
  current_lambda s' = current_lambda s /\
  exists es, trace s' = trace s ++ es /\ forallb (fun e => negb (is_select e)) es = true.
Lemma R_ns_refl s : R_ns s s.
Proof. split; [reflexivity|exists []; rewrite app_nil_r; auto]. Qed.
Lemma R_ns_trans s1 s2 s3 : R_ns s1 s2 -> R_ns s2 s3 -> R_ns s1 s3.
Proof.
  intros [C1 [e1 [H1 F1]]] [C2 [e2 [H2 F2]]]; split; [congruence|].
  exists (e1 ++ e2); rewrite H2, H1, app_assoc, forallb_app, F1, F2; auto.
Qed.

(** Position and trace both untouched. *)
Definition R_ct (s s' : St) : Prop := current_lambda s' = current_lambda s /\ trace s' = trace s.
Lemma R_ct_refl s : R_ct s s.
Proof. split; reflexivity. Qed.
Lemma R_ct_trans s1 s2 s3 : R_ct s1 s2 -> R_ct s2 s3 -> R_ct s1 s3.
Proof. unfold R_ct; intuition congruence. Qed.

Ltac prim_ns :=
  intro; simpl; split; [reflexivity|];
  first [ exists []; rewrite app_nil_r; split; reflexivity
        | eexists; split; reflexivity ].

Lemma preparar_ct env t : pres R_ct (preparar env t).
Proof.
  unfold preparar, mono_inicializar, lockin_conectar, lockin_configurar, inst_write.
  pres_go R_ct_refl R_ct_trans prim_tac.
Qed.



(** After its move, a step keeps the position and commands no wavelength. *)
Lemma passo_after_move env te wl s w s1 :
  mover_para env (inject_Z wl) s = (Ok w, s1) ->
  R_ns s1 (snd (passo env te wl s)).
Proof.
  intro Hm; unfold passo; rewrite (bind_ok _ _ _ _ _ Hm), bind_sleep.
  destruct (sleep_check (espera env te)); [apply R_ns_refl|].
  match goal with
  | |- R_ns _ (snd (?K (with_ev s1 ?e))) =>
      assert (HK : pres R_ns K)
        by (unfold verificar_status, auto_sensitivity, ler_XY, inst_write, time_sleep;
            pres_go R_ns_refl R_ns_trans prim_ns);
      apply (R_ns_trans _ (with_ev s1 e)); [|apply HK]
  end.
  split; [reflexivity|eexists; split; reflexivity].
Qed.







(** ** Increasing sweeps in the laboratory configuration *)

(** Consecutive elements differ by [k]. *)
Fixpoint chain (k : Z) (l : list Z) : Prop :=
  match l with
  | [] => True
  | x :: l' => match l' with [] => True | y :: _ => y = (x + k)%Z end /\ chain k l'
  end.

Lemma chain_seq a k n : forall m,
  chain k (map (fun i => a + Z.of_nat i * k)%Z (seq m n)).
Proof.
  induction n as [|n IH]; intro m; [exact I|].
  cbn [seq map chain]; split; [|apply IH].
  destruct n; [exact I|]; cbn [seq map]; rewrite Nat2Z.inj_succ; lia.
Qed.

Lemma py_range_chain a b k l : py_range a b k = Some l -> chain k l.
Proof.
  unfold py_range; destruct (k =? 0)%Z; [discriminate|].
  intro H; inversion H; apply chain_seq.
Qed.

Lemma py_range_head a b k w l : py_range a b k = Some (w :: l) -> w = a.
Proof.
  unfold py_range; destruct (k =? 0)%Z; [discriminate|]; intro H; inversion H.
  destruct (range_len a b k); [discriminate|]; cbn in *; inversion H1; lia.
Qed.

Lemma filter_no_select es :
  forallb (fun e => negb (is_select e)) es = true -> filter is_select es = [].
Proof.
  induction es as [|e es IH]; simpl; auto; intro H.
  apply andb_prop in H as [H1 H2]; destruct (is_select e); [discriminate|auto].
Qed.

(** The position before the first wavelength of [l] does not call for the
    backlash overshoot. *)
Definition start_ok (s : St) (l : list Z) : Prop :=
  match l with
  | [] => True
  | w :: _ => current_lambda s = None \/
              exists c, current_lambda s = Some c /\ c <= inject_Z w
  end.

Lemma laco_lab_selects env te k l s :
  SIMULATE env = false -> lib s = true ->
  (forall w, select env (inject_Z w) <= inject_Z (w + k)) ->
  chain k l -> start_ok s l ->
  fst (laco env te l s) = Ok tt ->
  filter is_select (trace (snd (laco env te l s))) =
    filter is_select (trace s) ++ map (fun w => EvSelect (inject_Z w)) l.
Proof.
  intros Hsim Hlib Hsel; revert s Hlib; induction l as [|w l IH]; intros s Hlib Hch Hst Hok.
  - simpl; rewrite app_nil_r; reflexivity.
  - cbn [laco] in *.
    pose proof (mover_para_lab_up env (inject_Z w) s Hsim Hlib Hst) as Hm.
    pose proof (passo_after_move env te w s _ _ Hm) as [Hc1 [es [Ht1 Hf1]]].
    pose proof (passo_h env te w s) as [Hl1 _].
    destruct (passo env te w s) as [[[]|e] s1] eqn:Hp;
      [rewrite (bind_ok _ _ _ _ _ Hp) in *|rewrite (bind_err _ _ _ _ _ Hp) in Hok;
                                           discriminate].
    cbn [snd trace current_lambda] in Hc1, Ht1, Hl1; destruct Hch as [Hnext Hch].
    rewrite (IH s1); [|congruence|exact Hch| |exact Hok].
    + rewrite Ht1, !filter_app, (filter_no_select _ Hf1); cbn.
      rewrite <- !app_assoc; reflexivity.
    + destruct l as [|w' l']; [exact I|]; right; exists (select env (inject_Z w)).
      split; [exact Hc1|]; rewrite Hnext; apply Hsel.
Qed.

(** X8: in the laboratory configuration, when the driver lands at most
    one step above each requested wavelength and the position before the
    sweep is unknown or not above its start, a sweep that completes
    normally commands exactly the wavelengths of
    [range(start, end + 1, step)], in order and once each: no backlash
    overshoot is ever issued. *)
Theorem lab_increasing_sweep_selects env a b k t s l :
  SIMULATE env = false ->
  (forall w, select env (inject_Z w) <= inject_Z (w + k)) ->
  (current_lambda s = None \/ exists c, current_lambda s = Some c /\ c <= inject_Z a) ->
  py_range a (b + 1) k = Some l ->
  fst (executar_varredura env a b k t s) = Ok tt ->
  filter is_select (trace (snd (executar_varredura env a b k t s))) =
    filter is_select (trace s) ++ map (fun w => EvSelect (inject_Z w)) l.
Proof.
  intros Hsim Hsel Hst Hr Hok; rewrite executar_unfold in *.
  pose proof (preparar_ct env t s) as [Hc0 Ht0].
  destruct (preparar env t s) as [[u|e] s0] eqn:Hp; [|discriminate].
  cbn [snd] in Hc0, Ht0; apply preparar_ok_handles in Hp.
  destruct Hp as [Hp|[Hlib Hinst]]; [congruence|].
  pose proof (corpo_pres R_h R_h_refl R_h_trans env a b k t (passo_h env) s0) as [Hl1 Hi1].
  unfold try_finally in *; destruct (corpo env a b k t s0) as [r s1] eqn:Hc.
  cbn [snd] in Hl1, Hi1; rewrite finalizar_ok in *; [|right; split; congruence..].
  cbn in Hok; subst r; cbn [snd trace].
  unfold corpo in Hc; rewrite Hr in Hc.
  pose proof (laco_lab_selects env (t * 5) k l s0 Hsim Hlib Hsel (py_range_chain _ _ _ _ Hr))
    as Hl.
  rewrite Hc in Hl; cbn [fst snd] in Hl; rewrite filter_app, Hl; [|clear Hl|reflexivity].
  - unfold fin_events; rewrite Hsim; cbn; rewrite Ht0, app_nil_r; reflexivity.
  - destruct l as [|w l']; [exact I|]; apply py_range_head in Hr; subst w.
    unfold start_ok; rewrite Hc0; exact Hst.
Qed.

Lemma lab_increasing_sweep_selects_witness :
  filter is_select (trace (snd (executar_varredura env_lab 400 800 5 (3 # 10)
                                  experimento_init))) =
    map (fun w => EvSelect (inject_Z w)) (map (fun i => 400 + 5 * Z.of_nat i)%Z (seq 0 81)).
Proof.
  apply (lab_increasing_sweep_selects env_lab 400 800 5 (3 # 10) experimento_init).
  - reflexivity.
  - intro w; cbn [select env_lab]; rewrite <- Zle_Qle; lia.
  - left; reflexivity.
  - vm_compute; reflexivity.
  - vm_compute; reflexivity.
Defined.

(** ** What a successful laboratory step reads *)

Lemma verificar_status_lab env w s ov s' :
  SIMULATE env = false -> verificar_status env w s = (Ok ov, s') ->
  exists st, status_word env w = Some st /\ ov = Z.testbit st 4.
Proof.
  unfold verificar_status, bind, emit, get, ret, raise; intros Hsim H.
  rewrite Hsim in H; cbn in H.
  destruct (inst s); [|discriminate]; destruct (status_word env w) as [st|]; [|discriminate].
  inversion H; exists st; split; [reflexivity|apply land_16_testbit].
Qed.

Lemma ler_XY_lab env w s p s' :
  SIMULATE env = false -> ler_XY env w s = (Ok p, s') -> xy_reply env w = Some p.
Proof.
  unfold ler_XY, bind, emit, get, ret, raise; intros Hsim H.
  rewrite Hsim in H; cbn in H.
  destruct (inst s); [|discriminate]; destruct (xy_reply env w); [|discriminate].
  inversion H; reflexivity.
Qed.

Lemma count_autosens_moves mv :
  forallb is_move_ev mv = true -> count_ev EvAutoSens mv = O.
Proof.
  induction mv as [|e mv IH]; [reflexivity|]; cbn [forallb]; intro H.
  apply andb_prop in H as [H1 H2]; unfold count_ev in *; cbn [filter].
  destruct e; try discriminate; cbn; apply IH, H2.
Qed.

Definition overload_at (env : Env) (w : Q) : bool :=
  match status_word env w with Some st => Z.testbit st 4 | None => false end.

Lemma bind_ret {A B} (a : A) (f : A -> M B) s : bind (ret a) f s = f a s.
Proof. reflexivity. Qed.

(** The read and the append that end a step. *)
Lemma read_append_lab env w s s' :
  SIMULATE env = false ->
  bind (ler_XY env w)
       (fun xy => let (x, y) := xy in
                  (if magnitude_overflows env x y then raise OverflowError else ret tt);;
                  append_dados (mkRow w x y (hypot env x y) (atan2_deg env x y))) s
    = (Ok tt, s') ->
  exists x y, xy_reply env w = Some (x, y) /\
    dados s' = dados s ++ [mkRow w x y (hypot env x y) (atan2_deg env x y)] /\
    trace s' = trace s ++ [EvReadXY w].
Proof.
  intros Hsim H.
  destruct (ler_XY env w s) as [[[x y]|e] s5] eqn:Hl;
    [rewrite (bind_ok _ _ _ _ _ Hl) in H|rewrite (bind_err _ _ _ _ _ Hl) in H; discriminate].
  pose proof (ler_XY_lab _ _ _ _ _ Hsim Hl) as Hx; apply ler_XY_eff in Hl; subst s5.
  destruct (magnitude_overflows env x y); [discriminate|].
  unfold append_dados in H; inversion H; subst; exists x, y; auto.
Qed.

Lemma passo_lab_ok env te wl s s' :
  SIMULATE env = false -> passo env te wl s = (Ok tt, s') ->
  exists x y,
    xy_reply env (achieved env (inject_Z wl)) = Some (x, y) /\
    dados s' = dados s ++ [row_at env wl x y] /\
    count_ev EvAutoSens (trace s') =
      (count_ev EvAutoSens (trace s) +
       (if overload_at env (achieved env (inject_Z wl)) then 1 else 0))%nat.
Proof.
  intros Hsim H; unfold passo in H.
  pose proof (mover_para_kd env (inject_Z wl) s) as Hk.
  pose proof (mover_para_mv env (inject_Z wl) s) as [mv [Hmv Fmv]].
  destruct (mover_para env (inject_Z wl) s) as [[w|e] s1] eqn:Hm;
    [|rewrite (bind_err _ _ _ _ _ Hm) in H; discriminate].
  cbn [snd] in Hk, Hmv.
  pose proof (mover_para_result _ _ _ _ _ Hm) as Hw; subst w.
  rewrite (bind_ok _ _ _ _ _ Hm), bind_sleep in H.
  destruct (sleep_check (espera env te)) as [e|] eqn:Hs; [discriminate|].
  match type of H with context [bind (verificar_status env ?w) _ ?st] =>
    destruct (verificar_status env w st) as [[ov|e] s3] eqn:Hv;
    [rewrite (bind_ok _ _ _ _ _ Hv) in H | rewrite (bind_err _ _ _ _ _ Hv) in H;
                                           discriminate]
  end.
  destruct (verificar_status_lab _ _ _ _ _ Hsim Hv) as [st [Hst Hov]].
  apply verificar_status_eff in Hv; subst s3.
  unfold overload_at; rewrite Hst, <- Hov.
  destruct ov.
  - rewrite bind_assoc_at in H.
    match type of H with context [bind (auto_sensitivity env) _ ?st] =>
      destruct (auto_sensitivity env st) as [[u|e] s4] eqn:Ha;
      [rewrite (bind_ok _ _ _ _ _ Ha), bind_sleep, Hs in H
      | rewrite (bind_err _ _ _ _ _ Ha) in H; discriminate];
      apply auto_sensitivity_eff in Ha; subst s4
    end.
    cbv beta iota in H; apply read_append_lab in H as [x [y [Hx [Hd Ht]]]]; [|exact Hsim].
    exists x, y; split; [exact Hx|split].
    + rewrite Hd; cbn; rewrite Hk; reflexivity.
    + rewrite Ht; cbn [trace with_ev]; rewrite Hmv, !count_ev_app,
        (count_autosens_moves _ Fmv); cbn; lia.
  - rewrite bind_ret in H.
    apply read_append_lab in H as [x [y [Hx [Hd Ht]]]]; [|exact Hsim].
    exists x, y; split; [exact Hx|split].
    + rewrite Hd; cbn; rewrite Hk; reflexivity.
    + rewrite Ht; cbn [trace with_ev]; rewrite Hmv, !count_ev_app,
        (count_autosens_moves _ Fmv); cbn; lia.
Qed.

Lemma laco_lab_ok env te l s s' :
  SIMULATE env = false -> laco env te l s = (Ok tt, s') ->
  exists recs,
    dados s' = dados s ++ recs /\
    map (fun r => Some (r_x r, r_y r)) recs =
      map (fun w => xy_reply env (achieved env (inject_Z w))) l /\
    count_ev EvAutoSens (trace s') =
      (count_ev EvAutoSens (trace s) +
       length (filter (fun w => overload_at env (achieved env (inject_Z w))) l))%nat.
Proof.
  intro Hsim; revert s; induction l as [|w l IH]; intros s H; cbn [laco] in H.
  - inversion H; subst; exists []; rewrite app_nil_r; cbn; auto.
  - destruct (passo env te w s) as [[[]|e] s1] eqn:Hp;
      [rewrite (bind_ok _ _ _ _ _ Hp) in H|rewrite (bind_err _ _ _ _ _ Hp) in H; discriminate].
    destruct (passo_lab_ok _ _ _ _ _ Hsim Hp) as [x [y [Hx [Hd1 Hc1]]]].
    destruct (IH s1 H) as [recs [Hd [Hm Hc]]].
    exists (row_at env w x y :: recs); split; [|split].
    + rewrite Hd, Hd1, <- app_assoc; reflexivity.
    + cbn [map]; rewrite Hm, Hx; reflexivity.
    + rewrite Hc, Hc1; cbn [filter];
        destruct (overload_at env (achieved env (inject_Z w))); cbn [length]; lia.
Qed.

(** A laboratory sweep that completes normally: the setup returned, the
    loop ran over the whole range, and both shutdowns ran. *)
Lemma executar_lab_ok env a b k t s l :
  SIMULATE env = false -> py_range a (b + 1) k = Some l ->
  fst (executar_varredura env a b k t s) = Ok tt ->
  exists s0 s1,
    dados s0 = dados s /\ trace s0 = trace s /\
    laco env (t * 5) l s0 = (Ok tt, s1) /\
    snd (executar_varredura env a b k t s) =
      mkSt (current_lambda s1) (lib s1) (inst s1) (tau s1) (dados s1)
           (trace s1 ++ fin_events env).
Proof.
  intros Hsim Hr Hok; rewrite executar_unfold in *.
  pose proof (preparar_ct env t s) as [_ Ht0].
  pose proof (preparar_kd env t s) as Hd0.
  destruct (preparar env t s) as [[u|e] s0] eqn:Hp; [|discriminate].
  cbn [snd] in Ht0, Hd0; apply preparar_ok_handles in Hp.
  destruct Hp as [Hp|[Hlib Hinst]]; [congruence|].
  pose proof (corpo_pres R_h R_h_refl R_h_trans env a b k t (passo_h env) s0) as [Hl1 Hi1].
  unfold try_finally in *; destruct (corpo env a b k t s0) as [r s1] eqn:Hc.
  cbn [snd] in Hl1, Hi1; rewrite finalizar_ok in *; [|right; split; congruence..].
  cbn in Hok; subst r.
  unfold corpo in Hc; rewrite Hr in Hc.
  exists s0, s1; auto.
Qed.

(** X9: in the laboratory configuration, a sweep that completes normally
    appends one row per wavelength of the range whose X and Y are the
    values of the ["XY."] reply read at the wavelength the move achieved
    (not the one requested). *)
Theorem lab_sweep_reads env a b k t s l :
  SIMULATE env = false -> py_range a (b + 1) k = Some l ->
  fst (executar_varredura env a b k t s) = Ok tt ->
  exists recs,
    dados (snd (executar_varredura env a b k t s)) = dados s ++ recs /\
    map (fun r => Some (r_x r, r_y r)) recs =
      map (fun w => xy_reply env (select env (inject_Z w))) l.
Proof.
  intros Hsim Hr Hok.
  destruct (executar_lab_ok _ _ _ _ _ _ _ Hsim Hr Hok) as [s0 [s1 [Hd0 [_ [Hl Hs]]]]].
  destruct (laco_lab_ok _ _ _ _ _ Hsim Hl) as [recs [Hd [Hm _]]].
  exists recs; rewrite Hs; cbn [dados]; rewrite Hd, Hd0; split; [reflexivity|].
  rewrite Hm; unfold achieved; rewrite Hsim; reflexivity.
Qed.

Lemma lab_sweep_reads_witness :
  exists recs,
    dados (snd (executar_varredura env_lab 400 800 5 (3 # 10) experimento_init)) = recs /\
    map (fun r => Some (r_x r, r_y r)) recs = repeat (Some (3, 4)) 81.
Proof.
  destruct (lab_sweep_reads env_lab 400 800 5 (3 # 10) experimento_init
              (map (fun i => 400 + 5 * Z.of_nat i)%Z (seq 0 81)) eq_refl
              ltac:(vm_compute; reflexivity) ltac:(vm_compute; reflexivity))
    as [recs [Hd Hm]].
  exists recs; split; [exact Hd|rewrite Hm; vm_compute; reflexivity].
Defined.

(** X10: in the laboratory configuration, a sweep that completes normally
    calls [auto_sensitivity] once for each wavelength of the range whose
    status word, queried at the achieved wavelength, has bit 4 set, and
    at no other time. *)
Theorem lab_sweep_rescale_count env a b k t s l :
  SIMULATE env = false -> py_range a (b + 1) k = Some l ->
  fst (executar_varredura env a b k t s) = Ok tt ->
  count_ev EvAutoSens (trace (snd (executar_varredura env a b k t s))) =
    (count_ev EvAutoSens (trace s) +
     length (filter (fun w => match status_word env (select env (inject_Z w)) with
                              | Some st => Z.testbit st 4
                              | None => false
                              end) l))%nat.
Proof.
  intros Hsim Hr Hok.
  destruct (executar_lab_ok _ _ _ _ _ _ _ Hsim Hr Hok) as [s0 [s1 [_ [Ht0 [Hl Hs]]]]].
  destruct (laco_lab_ok _ _ _ _ _ Hsim Hl) as [recs [_ [_ Hc]]].
  rewrite Hs; cbn [trace]; rewrite count_ev_app, Hc, Ht0.
  assert (Hf : count_ev EvAutoSens (fin_events env) = O)
    by (unfold fin_events; destruct (SIMULATE env); reflexivity).
  rewrite Hf, Nat.add_0_r; unfold overload_at, achieved; rewrite Hsim; reflexivity.
Qed.

Lemma lab_sweep_rescale_count_witness :
  count_ev EvAutoSens
    (trace (snd (executar_varredura env_lab 400 800 5 (3 # 10) experimento_init))) = 1%nat.
Proof.
  rewrite (lab_sweep_rescale_count env_lab 400 800 5 (3 # 10) experimento_init
             (map (fun i => 400 + 5 * Z.of_nat i)%Z (seq 0 81)) eq_refl
             ltac:(vm_compute; reflexivity) ltac:(vm_compute; reflexivity)).
  vm_compute; reflexivity.
Defined.

(** X11: [configurar_experimento] assigns [self.tau] before its first
    GPIB write, so whatever its outcome (also when a write raises, or
    [self.inst] is [None]) the only state it changes is [tau], set to the
    requested value. *)
Theorem configurar_only_sets_tau env t s :
  snd (lockin_configurar env t s) =
    mkSt (current_lambda s) (lib s) (inst s) t (dados s) (trace s).
Proof.
  unfold lockin_configurar, inst_write, set_tau, bind, get, ret, raise; cbn.
  destruct (SIMULATE env), (inst s); cbn; try reflexivity.
  repeat (destruct (write_ok env _ _); cbn; try reflexivity).
Qed.

(** X12: when one of the three setup calls raises, [executar_varredura]
    raises that same exception with the state the failing call left:
    no wavelength is commanded, no row is appended, and neither shutdown
    runs. *)
Theorem sweep_setup_failure env a b k t s e :
  fst (preparar env t s) = Err e ->
  executar_varredura env a b k t s = preparar env t s /\
  trace (snd (executar_varredura env a b k t s)) = trace s /\
  dados (snd (executar_varredura env a b k t s)) = dados s /\
  current_lambda (snd (executar_varredura env a b k t s)) = current_lambda s.
Proof.
  intro He; rewrite executar_unfold.
  pose proof (preparar_ct env t s) as [Hc0 Ht0].
  pose proof (preparar_kd env t s) as Hd0.
  destruct (preparar env t s) as [[u|e'] s0]; cbn in He; [discriminate|].
  cbn in *; auto.
Qed.

Lemma sweep_setup_failure_witness :
  executar_varredura env_lab_no_gpib 400 800 5 (3 # 10) experimento_init =
    preparar env_lab_no_gpib (3 # 10) experimento_init /\
  trace (snd (executar_varredura env_lab_no_gpib 400 800 5 (3 # 10) experimento_init)) = [].
Proof.
  destruct (sweep_setup_failure env_lab_no_gpib 400 800 5 (3 # 10) experimento_init VisaError
              ltac:(vm_compute; reflexivity)) as [H1 [H2 _]].
  split; [exact H1|exact H2].
Defined.



(** ** Decreasing sweeps *)

(** With a negative step, every element of [range(start, stop, step)] is
    above [stop]. *)
Lemma py_range_neg_above a c k l :
  (k < 0)%Z -> py_range a c k = Some l -> Forall (fun w => (c < w)%Z) l.
Proof.
  intros Hk Hr; unfold py_range in Hr.
  destruct (k =? 0)%Z eqn:Hk0; [discriminate|]; inversion Hr; subst l; clear Hr.
  apply Forall_forall; intros w Hw; apply in_map_iff in Hw as [i [Hi Hin]]; subst w.
  apply in_seq in Hin; destruct Hin as [_ Hin]; cbn in Hin.
  unfold range_len in Hin.
  destruct (0 <? k)%Z eqn:Hpos; [apply Z.ltb_lt in Hpos; lia|].
  destruct (c <? a)%Z eqn:Hca; [|lia]; apply Z.ltb_lt in Hca.
  set (d := ((a - c - 1) / - k)%Z) in Hin.
  assert (Hd : (- k * d <= a - c - 1)%Z) by (apply Z.mul_div_le; lia).
  assert (Hd0 : (0 <= d)%Z) by (apply Z.div_pos; lia).
  assert (Hid : (Z.of_nat i <= d)%Z) by lia.
  nia.
Qed.

(** Whatever its outcome, a loop over [l] appends only rows whose
    wavelength is the achieved one of an element of [l]. *)
Lemma laco_rows_from env te l s :
  exists recs,
    dados (snd (laco env te l s)) = dados s ++ recs /\
    Forall (fun r => exists w, In w l /\ r_wl r = achieved env (inject_Z w)) recs.
Proof.
  revert s; induction l as [|wl l IH]; intro s; cbn [laco].
  - exists []; cbn; rewrite app_nil_r; auto.
  - destruct (passo env te wl s) as [[u|e] s1] eqn:Hp;
      [rewrite (bind_ok _ _ _ _ _ Hp)|rewrite (bind_err _ _ _ _ _ Hp)];
      apply passo_dados in Hp.
    + destruct Hp as [x [y Hd1]]; destruct (IH s1) as [recs [Hd HF]].
      exists (row_at env wl x y :: recs); split.
      * rewrite Hd, Hd1, <- app_assoc; reflexivity.
      * constructor; [exists wl; split; [left|]; reflexivity|].
        eapply Forall_impl; [|exact HF].
        intros r [w [Hw Hr]]; exists w; split; [right; exact Hw|exact Hr].
    + exists []; cbn; rewrite Hp, app_nil_r; auto.
Qed.

(** Whatever its outcome, a sweep appends only rows whose wavelength is
    the achieved one of an element of its range. *)
Lemma executar_rows_from env a b k t s :
  exists recs,
    dados (snd (executar_varredura env a b k t s)) = dados s ++ recs /\
    Forall (fun r => exists l w, py_range a (b + 1) k = Some l /\ In w l /\
                                 r_wl r = achieved env (inject_Z w)) recs.
Proof.
  rewrite executar_unfold.
  pose proof (preparar_kd env t s) as Hd0.
  destruct (preparar env t s) as [[u|e] s0]; cbn in Hd0 |- *;
    [|exists []; rewrite Hd0, app_nil_r; auto].
  unfold try_finally, corpo.
  destruct (py_range a (b + 1) k) as [l|] eqn:Hr.
  - destruct (laco_rows_from env (t * 5) l s0) as [recs [Hd HF]].
    destruct (laco env (t * 5) l s0) as [r s1]; cbn in Hd.
    pose proof (finalizar_kd env s1) as Hf.
    exists recs; split.
    + destruct (finalizar env s1) as [[v|e'] s2]; cbn in *; rewrite Hf, Hd, Hd0; reflexivity.
    + eapply Forall_impl; [|exact HF].
      intros rw [w [Hw Hrw]]; exists l, w; auto.
  - pose proof (finalizar_kd env s0) as Hf.
    exists []; rewrite app_nil_r; split; [|constructor].
    unfold raise; destruct (finalizar env s0) as [[v|e'] s2]; cbn in *; congruence.
Qed.

(** X14: in the simulated configuration, a sweep with a negative step
    ([end] below [start]) never records [end] itself: [range(start,
    end + 1, step)] stops above [end + 1], so every row it appends has a
    wavelength greater than [end + 1]. *)
Theorem decreasing_sweep_skips_end env a b k t s :
  SIMULATE env = true -> (k < 0)%Z ->
  exists recs,
    dados (snd (executar_varredura env a b k t s)) = dados s ++ recs /\
    Forall (fun r => inject_Z (b + 1) < r_wl r) recs.
Proof.
  intros Hsim Hk.
  destruct (executar_rows_from env a b k t s) as [recs [Hd HF]].
  exists recs; split; [exact Hd|].
  eapply Forall_impl; [|exact HF].
  intros r [l [w [Hr [Hw Hrw]]]].
  pose proof (py_range_neg_above _ _ _ _ Hk Hr) as Hf; rewrite Forall_forall in Hf.
  unfold achieved in Hrw; rewrite Hsim in Hrw.
  rewrite Hrw, <- Zlt_Qlt; apply Hf, Hw.
Qed.

Lemma decreasing_sweep_skips_end_witness :
  exists recs,
    dados (snd (executar_varredura env_sim 800 400 (-5) (3 # 10) experimento_init)) =
      [] ++ recs /\
    Forall (fun r => inject_Z (400 + 1) < r_wl r) recs.
Proof. apply (decreasing_sweep_skips_end env_sim 800 400 (-5)); [reflexivity|lia]. Defined.
